(** * lorenz_gan: the experiment driver [train_lorenz_gan.py]

    A shallow embedding of the driver script of the Lorenz '96 / GAN
    experiment: [main], [generate_lorenz_data] and [train_lorenz_gan].

    - Configuration values are the YAML tree the script indexes
      ([config["lorenz"]["K"]], ...): dictionaries are finite maps, a missing
      key raises [KeyError].
    - Python's built-ins that the script relies on (extended slicing
      [a[b::s]] and [a[:-t]], [%], [str.format], [str.lower],
      [os.path.join]) are written out with their behaviour on every input
      of the modelled types.
    - The script's effects (files, printing, calls into the [lorenz_gan]
      package and keras) are threaded through a monad of state and
      exceptions that also records, oldest first, every call that leaves
      the script.
    - The functions imported from the [lorenz_gan] package are not part of
      the script; they are the fields of the class [Collaborators].
    - Array elements are kept abstract ([Numeric]): the script never
      inspects them, it only builds zeros and ones, and averages. *)

From Stdlib Require Import ZArith QArith String Ascii List Lia.
From stdpp Require Import gmap strings list pretty.

Set Warnings "-register-all".
Local Open Scope string_scope.
Local Open Scope Z_scope.

(** ** Python values and exceptions *)

(** What [yaml.load] returns for the documents the script reads. *)
Inductive yaml : Type :=
| YInt (z : Z)
| YFloat (q : Q)
| YStr (s : string)
| YSeq (l : list yaml)
| YMap (m : gmap string yaml).

(** The exceptions the script can end with.  [OutOfModel] marks an input of
    a kind this development does not follow further (Python goes on there
    in a way that is not modelled, e.g. [np.zeros] of a list of ints). *)
Inductive pyexn : Type :=
| KeyError (key : string)
| TypeError
| ValueError
| IndexError
| ZeroDivisionError
| AttributeError
| OSError (path : string)
| External (who : string)
| OutOfModel.

Inductive result (A : Type) : Type :=
| Ok (a : A)
| Raise (e : pyexn).
Arguments Ok {A} a.
Arguments Raise {A} e.

Definition rbind {A B} (r : result A) (k : A -> result B) : result B :=
  match r with
  | Ok a => k a
  | Raise e => Raise e
  end.

Notation "'let?' x ':=' r 'in' k" := (rbind r (fun x => k))
  (at level 10, x pattern, r at level 100, k at level 200).

(** [d[key]] for a string key. *)
Definition getitem (d : yaml) (key : string) : result yaml :=
  match d with
  | YMap m => match m !! key with
              | Some v => Ok v
              | None => Raise (KeyError key)
              end
  | _ => Raise TypeError
  end.

(** [a * b] on configuration values (used for [config["J"] * config["K"]]). *)
Definition py_mul (a b : yaml) : result yaml :=
  match a, b with
  | YInt x, YInt y => Ok (YInt (x * y))
  | YInt x, YFloat y => Ok (YFloat (inject_Z x * y))
  | YFloat x, YInt y => Ok (YFloat (x * inject_Z y))
  | YFloat x, YFloat y => Ok (YFloat (x * y))
  | YMap _, _ | _, YMap _ => Raise TypeError
  | _, _ => Raise OutOfModel
  end.

(** A value used as the file name of [to_csv]. *)
Definition as_path (v : yaml) : result string :=
  match v with
  | YStr p => Ok p
  | _ => Raise OutOfModel
  end.

(** A value used as a slice bound or step ([__index__]). *)
Definition as_index (v : yaml) : result Z :=
  match v with
  | YInt z => Ok z
  | _ => Raise TypeError
  end.

(** ** Extended slicing

    [PySlice_AdjustIndices]: a bound given by the program is brought into
    range, a bound left out defaults by the sign of the step, and the
    number of selected positions is computed from them. *)

Definition adjust_bound (len bound step : Z) : Z :=
  if bound <? 0 then
    let b := bound + len in
    if b <? 0 then (if step <? 0 then -1 else 0) else b
  else if len <=? bound then (if step <? 0 then len - 1 else len)
  else bound.

Definition slice_length (start stop step : Z) : Z :=
  if step <? 0 then
    (if stop <? start then (start - stop - 1) / (- step) + 1 else 0)
  else
    (if start <? stop then (stop - start - 1) / step + 1 else 0).

(** The positions [a[start:stop:step]] selects in a sequence of length
    [len], in the order they are selected. *)
Definition slice_positions (len : nat) (start stop step : option Z)
  : result (list nat) :=
  let step := default 1 step in
  if step =? 0 then Raise ValueError else
  let n := Z.of_nat len in
  let start := match start with
               | Some s => adjust_bound n s step
               | None => if step <? 0 then n - 1 else 0
               end in
  let stop := match stop with
              | Some s => adjust_bound n s step
              | None => if step <? 0 then -1 else n
              end in
  Ok (map (fun i : nat => Z.to_nat (start + Z.of_nat i * step))
          (seq 0 (Z.to_nat (slice_length start stop step)))).

(** [a[start:stop:step]] along the first axis. *)
Definition py_slice {A} (a : list A) (start stop step : option Z)
  : result (list A) :=
  let? ps := slice_positions (length a) start stop step in
  Ok (omap (fun p : nat => a !! p) ps).

(** ** Strings: [str.format], [str.lower], [os.path.join] *)

(** ["{0:d}".format(z)]. *)
Definition format_d (z : Z) : string := pretty z.

Fixpoint zeros (n : nat) : string :=
  match n with
  | O => ""
  | S n => String "0" (zeros n)
  end.

(** ["{0:04d}".format(z)]: the sign counts in the width. *)
Definition zero_pad4 (z : Z) : string :=
  if z <? 0 then
    let digits := pretty (- z) in
    String "-" (String.append (zeros (3 - String.length digits)) digits)
  else
    let digits := pretty z in
    String.append (zeros (4 - String.length digits)) digits.

Definition format_04d (v : yaml) : result string :=
  match v with
  | YInt z => Ok (zero_pad4 z)
  | YFloat _ | YStr _ => Raise ValueError
  | YSeq _ | YMap _ => Raise TypeError
  end.

Definition lower_ascii (c : ascii) : ascii :=
  let n := N_of_ascii c in
  if ((65 <=? n) && (n <=? 90))%N then ascii_of_N (n + 32) else c.

(** [s.lower()], on ASCII text. *)
Fixpoint lower (s : string) : string :=
  match s with
  | EmptyString => EmptyString
  | String c s => String (lower_ascii c) (lower s)
  end.

Definition ends_with_slash (s : string) : bool :=
  match String.get (String.length s - 1) s with
  | Some c => Ascii.eqb c "/"
  | None => false
  end.

(** [os.path.join(a, b)] (posixpath) for two components. *)
Definition join (a : yaml) (b : string) : result string :=
  match a with
  | YStr a =>
      if String.prefix "/" b then Ok b
      else if String.eqb a "" || ends_with_slash a then Ok (String.append a b)
      else Ok (String.append a (String "/" b))
  | _ => Raise TypeError
  end.

(** [v == s] for a string literal [s]. *)
Definition eq_str (v : yaml) (s : string) : bool :=
  match v with
  | YStr t => String.eqb t s
  | _ => false
  end.

(** ** Arrays and tables *)

(** The arithmetic numpy does for the script.  Elements stay abstract: an
    instance gives the conversion from an integer, addition and division. *)
Class Numeric (scalar : Type) : Type := {
  s_of_Z : Z -> scalar;
  s_add : scalar -> scalar -> scalar;
  s_div : scalar -> scalar -> scalar
}.

Inductive dtype : Type := float32 | float64.

Fixpoint rmapM {A B} (f : A -> result B) (l : list A) : result (list B) :=
  match l with
  | [] => Ok []
  | x :: l => let? y := f x in let? ys := rmapM f l in Ok (y :: ys)
  end.

Fixpoint index_of (name : string) (names : list string) : option nat :=
  match names with
  | [] => None
  | n :: names =>
      if String.eqb name n then Some O else S <$> index_of name names
  end.

Section Data.
Context {scalar : Type} {numeric : Numeric scalar}.

(** A one-dimensional numpy array. *)
Record ndarray : Type := {
  arr_dtype : dtype;
  arr_data : list scalar
}.

(** [np.zeros(shape, dtype=dt)] for an integer shape. *)
Definition np_zeros (shape : yaml) (dt : dtype) : result ndarray :=
  match shape with
  | YInt n =>
      if n <? 0 then Raise ValueError
      else Ok {| arr_dtype := dt;
                 arr_data := replicate (Z.to_nat n) (s_of_Z 0) |}
  | YSeq _ => Raise OutOfModel
  | _ => Raise TypeError
  end.

(** [a[i] = v] for an integer [v], converted to the array's type. *)
Definition np_setitem (a : ndarray) (i v : Z) : result ndarray :=
  let n := Z.of_nat (length (arr_data a)) in
  let j := if i <? 0 then i + n else i in
  if (j <? 0) || (n <=? j) then Raise IndexError
  else Ok {| arr_dtype := arr_dtype a;
             arr_data := <[Z.to_nat j := s_of_Z v]> (arr_data a) |}.

(** What the integrator returns, and what [generate_lorenz_data] returns
    after trimming: four sequences indexed by frame. *)
Record Trajectory : Type := {
  X_out : list (list scalar);
  Y_out : list (list scalar);
  times : list scalar;
  steps : list Z
}.

(** A pandas DataFrame: column labels, row labels, one list of cells per
    row. *)
Record DataFrame : Type := {
  columns : list string;
  index : list Z;
  values : list (list scalar)
}.

(** Arrays of shape (rows, channels, 1), as nested lists. *)
Definition array3 : Type := list (list (list scalar)).

(** [df[cols]]: the named columns, in the order asked for. *)
Definition df_getitem (df : DataFrame) (cols : list string)
  : result DataFrame :=
  let? ps := rmapM (fun c => match index_of c (columns df) with
                             | Some p => Ok p
                             | None => Raise (KeyError c)
                             end) cols in
  Ok {| columns := cols;
        index := index df;
        values := map (fun row => omap (fun p : nat => row !! p) ps)
                      (values df) |}.

(** [np.expand_dims(a, axis=-1)] of a two-dimensional array. *)
Definition expand_dims (a : list (list scalar)) : array3 :=
  map (map (fun v => [v])) a.

(** [np.mean] of a sequence: the sum divided by the count. *)
Definition np_mean (l : list scalar) : scalar :=
  s_div (fold_left s_add l (s_of_Z 0)) (s_of_Z (Z.of_nat (length l))).

(** [a.mean(axis=1)] of an array of shape (rows, channels, d). *)
Definition mean_axis1 (d : nat) (a : array3) : list (list scalar) :=
  map (fun row =>
         map (fun k : nat => np_mean (omap (fun cell : list scalar => cell !! k) row))
             (seq 0 d))
      a.

(** [np.arange(n)] as the script uses it. *)
Definition np_arange (n : yaml) : result (list Z) :=
  match n with
  | YInt n => Ok (map Z.of_nat (seq 0 (Z.to_nat n)))
  | YFloat _ => Raise OutOfModel
  | _ => Raise TypeError
  end.

(** [range(n)]. *)
Definition py_range (n : yaml) : result (list Z) :=
  match n with
  | YInt n => Ok (map Z.of_nat (seq 0 (Z.to_nat n)))
  | _ => Raise TypeError
  end.

(** What can be on disk. *)
Inductive File : Type :=
| FDir
| FYaml (doc : yaml)
| FCsv (index_label : option string) (df : DataFrame)
| FNetCDF (t : Trajectory) (attrs : yaml).

(** [pd.read_csv] of a file's content: a file written without its index
    comes back as it was; the index column of a file written with one is
    read as a column of data. *)
Definition parse_csv (f : File) : option DataFrame :=
  match f with
  | FCsv None df =>
      Some {| columns := columns df;
              index := map Z.of_nat (seq 0 (length (values df)));
              values := values df |}
  | FCsv (Some label) df =>
      Some {| columns := label :: columns df;
              index := map Z.of_nat (seq 0 (length (values df)));
              values := zip_with (fun i row => s_of_Z i :: row)
                                 (index df) (values df) |}
  | _ => None
  end.
End Data.

Arguments ndarray scalar : clear implicits.
Arguments Trajectory scalar : clear implicits.
Arguments DataFrame scalar : clear implicits.
Arguments array3 scalar : clear implicits.
Arguments File scalar : clear implicits.


(** ** The world the script runs in *)

(** The keras optimizer the script builds: [Adam(lr=..., beta_1=...)]. *)
Record optimizer : Type := Adam { lr : Q; beta_1 : Q }.

Section World.
Context {scalar : Type}.

(** The arguments of the call [train_gan(...)], in the order of the call. *)
Record train_gan_call : Type := {
  tg_Y_norm : array3 scalar;
  tg_X_norm : array3 scalar;
  tg_batch_size : yaml;
  tg_num_random_inputs : yaml;
  tg_gan_path : yaml;
  tg_gan_index : yaml;
  tg_num_epochs : yaml;
  tg_metrics : yaml;
  tg_Y_scaling_values : DataFrame scalar;
  tg_X_scaling_values : DataFrame scalar
}.

(** One entry per call that leaves the script: into the operating system,
    pandas, the [lorenz_gan] package or keras.  An entry is made when the
    call is made, whether or not it then succeeds. *)
Inductive Event : Type :=
| EvOpen (path : string)
| EvMkdir (path : string)
| EvPrintStr (text : string)
| EvPrintFrame (df : DataFrame scalar)
| EvReadCsv (path : string)
| EvRunLorenz (X Y : ndarray scalar) (h F b c time_step num_steps : yaml)
| EvProcess (t : Trajectory scalar) (num_cond_inputs J x_skip t_skip : yaml)
| EvSaveLorenz (t : Trajectory scalar) (config path : yaml)
| EvToCsv (path : string) (index_label : option string) (df : DataFrame scalar)
| EvNormalize (a : array3 scalar)
| EvBuildModel (builder : string) (kwargs : yaml)
| EvInitializeGan (loss : yaml) (opt : optimizer) (metrics : yaml)
| EvTrainGan (call : train_gan_call).

(** [hidden] stands for whatever a callee could read that the
    configuration does not determine (module globals, a random generator,
    the clock); [writable] says which paths the process may create. *)
Record World (Env : Type) : Type := {
  disk : gmap string (File scalar);
  writable : string -> bool;
  hidden : Env
}.

(** A run of a piece of the script from some world: how it ended, the world
    it left, and the calls it made, oldest first. *)
Record Run (Env A : Type) : Type := {
  outcome : result A;
  final : World Env;
  events : list Event
}.
End World.

Arguments train_gan_call scalar : clear implicits.
Arguments Event scalar : clear implicits.
Arguments World scalar Env : clear implicits.
Arguments disk {scalar Env} w.
Arguments writable {scalar Env} w.
Arguments hidden {scalar Env} w.
Arguments Run scalar Env A : clear implicits.
Arguments outcome {scalar Env A} r.
Arguments final {scalar Env A} r.
Arguments events {scalar Env A} r.

(** The functions the script imports from the [lorenz_gan] package.  Their
    sources are not part of the script; each may raise.  The integrator is
    also handed the hidden part of the world, so that what it may depend on
    is stated and not built in. *)
Class Collaborators (scalar Env model : Type) : Type := {
  run_lorenz96_truth :
    Env -> ndarray scalar -> ndarray scalar ->
    yaml -> yaml -> yaml -> yaml -> yaml -> yaml -> result (Trajectory scalar);
  process_lorenz_data :
    Trajectory scalar -> yaml -> yaml -> yaml -> yaml ->
    result (DataFrame scalar);
  save_lorenz_output : Trajectory scalar -> yaml -> yaml -> result unit;
  normalize_data : array3 scalar -> result (array3 scalar * DataFrame scalar);
  generator_conv : yaml -> result model;
  generator_dense : yaml -> result model;
  discriminator_conv : yaml -> result model;
  discriminator_dense : yaml -> result model;
  initialize_gan : model -> model -> yaml -> optimizer -> yaml -> result model;
  train_gan : model -> model -> model -> train_gan_call scalar -> result unit
}.

Section Driver.
Context {scalar Env model : Type}.
Context {numeric : Numeric scalar} {lorenz_gan : Collaborators scalar Env model}.

(** *** The monad of the script: state, exceptions and a record of calls *)

Definition Py (A : Type) : Type := World scalar Env -> Run scalar Env A.

(** A step that makes no call. *)
Definition quiet {A} (r : result A) (w : World scalar Env) : Run scalar Env A :=
  {| outcome := r; final := w; events := [] |}.

Definition ret {A} (a : A) : Py A := quiet (Ok a).

Definition bind {A B} (m : Py A) (k : A -> Py B) : Py B :=
  fun w =>
    let r := m w in
    match outcome r with
    | Ok a =>
        let r' := k a (final r) in
        {| outcome := outcome r'; final := final r';
           events := events r ++ events r' |}
    | Raise e =>
        {| outcome := Raise e; final := final r; events := events r |}
    end.

(** A step that touches nothing but may raise. *)
Definition lift {A} (r : result A) : Py A := quiet r.

Definition emit (e : Event scalar) : Py unit :=
  fun w => {| outcome := Ok tt; final := w; events := [e] |}.

(** The world once file [f] is at path [p]. *)
Definition wrote (w : World scalar Env) (p : string) (f : File scalar)
  : World scalar Env :=
  {| disk := <[p := f]> (disk w); writable := writable w; hidden := hidden w |}.

Definition write_file (p : string) (f : File scalar) : Py unit :=
  fun w => if writable w p
           then quiet (Ok tt) (wrote w p f)
           else quiet (Raise (OSError p)) w.

Notation "'do' x <- m 'in' k" := (bind m (fun x => k))
  (at level 10, x pattern, m at level 100, k at level 200).
Notation "'do' x <~ r 'in' k" := (bind (lift r) (fun x => k))
  (at level 10, x pattern, r at level 100, k at level 200).

(** *** The operating system and pandas *)

(** What [yaml.load] makes of the file at [path], if it can be opened. *)
Definition yaml_at (w : World scalar Env) (path : string) : result yaml :=
  match disk w !! path with
  | Some (FYaml doc) => Ok doc
  | Some FDir | None => Raise (OSError path)
  | Some _ => Raise OutOfModel
  end.

(** [with open(path) as f: yaml.load(f)]. *)
Definition load_yaml (path : string) : Py yaml :=
  do _ <- emit (EvOpen path) in
  fun w => quiet (yaml_at w path) w.

(** [os.path.exists(path)]. *)
Definition exists_ (path : yaml) : Py bool :=
  match path with
  | YStr p => fun w => quiet (Ok (bool_decide (is_Some (disk w !! p)))) w
  | YInt _ => lift (Raise OutOfModel)
  | _ => lift (Raise TypeError)
  end.

(** [os.mkdir(path)]. *)
Definition mkdir (path : yaml) : Py unit :=
  match path with
  | YStr p => do _ <- emit (EvMkdir p) in write_file p FDir
  | _ => lift (Raise TypeError)
  end.

(** What [pd.read_csv] makes of the file at [path], if it is a table. *)
Definition csv_at (w : World scalar Env) (path : string)
  : result (DataFrame scalar) :=
  match disk w !! path ≫= parse_csv with
  | Some df => Ok df
  | None => Raise (OSError path)
  end.

(** [pd.read_csv(path)]. *)
Definition read_csv (path : yaml) : Py (DataFrame scalar) :=
  match path with
  | YStr p => do _ <- emit (EvReadCsv p) in fun w => quiet (csv_at w p) w
  | _ => lift (Raise ValueError)
  end.

(** [df.to_csv(path, index=False)] when [index_label] is [None],
    [df.to_csv(path, index_label=l)] when it is [Some l]. *)
Definition to_csv (df : DataFrame scalar) (path : string)
    (index_label : option string) : Py unit :=
  do _ <- emit (EvToCsv path index_label df) in
  write_file path (FCsv index_label df).

(** *** Calls into the [lorenz_gan] package *)

Definition call_run_lorenz96_truth (X Y : ndarray scalar)
    (h F b c time_step num_steps : yaml) : Py (Trajectory scalar) :=
  do _ <- emit (EvRunLorenz X Y h F b c time_step num_steps) in
  fun w =>
    quiet (run_lorenz96_truth (hidden w) X Y h F b c time_step num_steps) w.

Definition call_process_lorenz_data (t : Trajectory scalar)
    (num_cond_inputs J x_skip t_skip : yaml) : Py (DataFrame scalar) :=
  do _ <- emit (EvProcess t num_cond_inputs J x_skip t_skip) in
  lift (process_lorenz_data t num_cond_inputs J x_skip t_skip).

Definition call_save_lorenz_output (t : Trajectory scalar)
    (config path : yaml) : Py unit :=
  do _ <- emit (EvSaveLorenz t config path) in
  do _ <~ save_lorenz_output t config path in
  match path with
  | YStr p => write_file p (FNetCDF t config)
  | _ => ret tt
  end.

Definition call_normalize_data (a : array3 scalar)
  : Py (array3 scalar * DataFrame scalar) :=
  do _ <- emit (EvNormalize a) in
  lift (normalize_data a).

Definition call_builder (name : string) (builder : yaml -> result model)
    (kwargs : yaml) : Py model :=
  do _ <- emit (EvBuildModel name kwargs) in
  lift (builder kwargs).

Definition call_initialize_gan (gen_model disc_model : model) (loss : yaml)
    (opt : optimizer) (metrics : yaml) : Py model :=
  do _ <- emit (EvInitializeGan loss opt metrics) in
  lift (initialize_gan gen_model disc_model loss opt metrics).

Definition call_train_gan (gen_model disc_model gen_disc : model)
    (call : train_gan_call scalar) : Py unit :=
  do _ <- emit (EvTrainGan call) in
  lift (train_gan gen_model disc_model gen_disc call).

(** *** [generate_lorenz_data] *)

(** [a[start::step]] with bounds taken from the configuration.  The step
    is unpacked first, as [PySlice_Unpack] does. *)
Definition slice_from {A} (a : list A) (start step : yaml) : result (list A) :=
  let? k := as_index step in
  if k =? 0 then Raise ValueError else
  let? s := as_index start in
  py_slice a (Some s) None (Some k).

(** Lines 104-105: the tuple the function returns, each of the four
    sequences indexed by [config["burn_in"]::skip]. *)
Definition trimmed (config skip : yaml) (raw : Trajectory scalar)
  : result (Trajectory scalar) :=
  let? burn_in := getitem config "burn_in" in
  let? X_out' := slice_from (X_out raw) burn_in skip in
  let? burn_in := getitem config "burn_in" in
  let? Y_out' := slice_from (Y_out raw) burn_in skip in
  let? burn_in := getitem config "burn_in" in
  let? times' := slice_from (times raw) burn_in skip in
  let? burn_in := getitem config "burn_in" in
  let? steps' := slice_from (steps raw) burn_in skip in
  Ok {| X_out := X_out'; Y_out := Y_out'; times := times'; steps := steps' |}.

Definition generate_lorenz_data (config : yaml) : Py (Trajectory scalar) :=
  do K <~ getitem config "K" in
  do X <~ np_zeros K float32 in
  do J <~ getitem config "J" in
  do K' <~ getitem config "K" in
  do JK <~ py_mul J K' in
  do Y <~ np_zeros JK float32 in
  do X <~ np_setitem X 0 1 in
  do Y <~ np_setitem Y 0 1 in
  do skip <~ getitem config "skip" in
  do h <~ getitem config "h" in
  do F <~ getitem config "F" in
  do b <~ getitem config "b" in
  do c <~ getitem config "c" in
  do time_step <~ getitem config "time_step" in
  do num_steps <~ getitem config "num_steps" in
  do raw <- call_run_lorenz96_truth X Y h F b c time_step num_steps in
  lift (trimmed config skip raw).

(** *** [train_lorenz_gan] *)

(** Lines 120-125: the loop that names the conditioning columns. *)
Definition x_cols_of (x_time_lags : list Z) : list string :=
  fold_left (fun x_cols t =>
               (x_cols ++ [if t =? 0 then "X_t"
                           else String.append "X_t-" (format_d t)])%list)
            x_time_lags [].

(** Line 127: the comprehension that names the target columns. *)
Definition y_cols_of (js : list Z) : list string :=
  map (fun y => String.append "Y_" (format_d y)) js.

(** [s.lower()] on a configuration value. *)
Definition str_lower (v : yaml) : result string :=
  match v with
  | YStr s => Ok (lower s)
  | _ => Raise AttributeError
  end.

(** [a % b] for a row count [a]. *)
Definition py_mod (a : Z) (b : yaml) : result Z :=
  match b with
  | YInt b => if b =? 0 then Raise ZeroDivisionError else Ok (a mod b)
  | YFloat _ => Raise OutOfModel
  | _ => Raise TypeError
  end.

(** Lines 150-152: the tail rows dropped from both arrays. *)
Definition trim_rows {A} (trim : Z) (Y_norm X_norm : list A)
  : result (list A * list A) :=
  if 0 <? trim then
    let? Y_norm := py_slice Y_norm None (Some (- trim)) None in
    let? X_norm := py_slice X_norm None (Some (- trim)) None in
    Ok (Y_norm, X_norm)
  else Ok (Y_norm, X_norm).

(** Lines 130-133: the array handed to [normalize_data] for the targets. *)
Definition y_target (output : string) (Y_series : array3 scalar)
  : array3 scalar :=
  if String.eqb output "mean"
  then expand_dims (mean_axis1 1 Y_series)
  else Y_series.

(** Lines 134-135 and 137-138: the path of a scaling-table file,
    [join(config["gan"]["gan_path"], name + "{0:04d}.csv".format(gan_index))]. *)
Definition scaling_file (config : yaml) (name : string) : result string :=
  let? gan := getitem config "gan" in
  let? gan_path := getitem gan "gan_path" in
  let? gan' := getitem config "gan" in
  let? gan_index := getitem gan' "gan_index" in
  let? number := format_04d gan_index in
  join gan_path (String.append name (String.append number ".csv")).

Definition train_lorenz_gan (config : yaml) (combined_data : DataFrame scalar)
  : Py unit :=
  do gan <~ getitem config "gan" in
  do generator <~ getitem gan "generator" in
  do num_cond_inputs <~ getitem generator "num_cond_inputs" in
  do x_time_lags <~ np_arange num_cond_inputs in
  let x_cols := x_cols_of x_time_lags in
  do X_frame <~ df_getitem combined_data x_cols in
  let X_series := expand_dims (values X_frame) in
  do lorenz <~ getitem config "lorenz" in
  do J <~ getitem lorenz "J" in
  do js <~ py_range J in
  do Y_frame <~ df_getitem combined_data (y_cols_of js) in
  let Y_series := expand_dims (values Y_frame) in
  do (X_norm, X_scaling_values) <- call_normalize_data X_series in
  do gan <~ getitem config "gan" in
  do output <~ getitem gan "output" in
  do output <~ str_lower output in
  do (Y_norm, Y_scaling_values) <-
       call_normalize_data (y_target output Y_series) in
  do X_file <~ scaling_file config "gan_X_scaling_values_" in
  do _ <- to_csv X_scaling_values X_file (Some "Channel") in
  do Y_file <~ scaling_file config "gan_Y_scaling_values_" in
  do _ <- to_csv Y_scaling_values Y_file (Some "Channel") in
  do gan <~ getitem config "gan" in
  do batch_size <~ getitem gan "batch_size" in
  do trim <~ py_mod (Z.of_nat (length X_norm)) batch_size in
  do gan <~ getitem config "gan" in
  do structure <~ getitem gan "structure" in
  do (gen_model, disc_model) <-
       (if eq_str structure "dense" then
          do gan <~ getitem config "gan" in
          do kwargs <~ getitem gan "generator" in
          do gen_model <- call_builder "generator_dense" generator_dense kwargs in
          do gan <~ getitem config "gan" in
          do kwargs <~ getitem gan "discriminator" in
          do disc_model <-
               call_builder "discriminator_dense" discriminator_dense kwargs in
          ret (gen_model, disc_model)
        else
          do gan <~ getitem config "gan" in
          do kwargs <~ getitem gan "generator" in
          do gen_model <- call_builder "generator_conv" generator_conv kwargs in
          do gan <~ getitem config "gan" in
          do kwargs <~ getitem gan "discriminator" in
          do disc_model <-
               call_builder "discriminator_conv" discriminator_conv kwargs in
          ret (gen_model, disc_model)) in
  let optimizer := Adam (1 # 10000) (1 # 2) in
  do gan <~ getitem config "gan" in
  do loss <~ getitem gan "loss" in
  do gan <~ getitem config "gan" in
  do metrics <~ getitem gan "metrics" in
  do gen_disc <-
       call_initialize_gan gen_model disc_model loss optimizer metrics in
  do (Y_norm, X_norm) <~ trim_rows trim Y_norm X_norm in
  do gan <~ getitem config "gan" in
  do batch_size <~ getitem gan "batch_size" in
  do gan <~ getitem config "gan" in
  do generator <~ getitem gan "generator" in
  do num_random_inputs <~ getitem generator "num_random_inputs" in
  do gan <~ getitem config "gan" in
  do gan_path <~ getitem gan "gan_path" in
  do gan <~ getitem config "gan" in
  do gan_index <~ getitem gan "gan_index" in
  do gan <~ getitem config "gan" in
  do num_epochs <~ getitem gan "num_epochs" in
  do gan <~ getitem config "gan" in
  do metrics <~ getitem gan "metrics" in
  call_train_gan gen_model disc_model gen_disc
    {| tg_Y_norm := Y_norm; tg_X_norm := X_norm;
       tg_batch_size := batch_size;
       tg_num_random_inputs := num_random_inputs;
       tg_gan_path := gan_path; tg_gan_index := gan_index;
       tg_num_epochs := num_epochs; tg_metrics := metrics;
       tg_Y_scaling_values := Y_scaling_values;
       tg_X_scaling_values := X_scaling_values |}.

(** *** [main] *)

(** What [argparse] hands over. *)
Record Args : Type := { config_file : string; reload : bool }.

Definition main (args : Args) : Py unit :=
  do config <- load_yaml (config_file args) in
  do gan <~ getitem config "gan" in
  do gan_path <~ getitem gan "gan_path" in
  do there <- exists_ gan_path in
  do _ <- (if there then ret tt
           else
             do gan <~ getitem config "gan" in
             do gan_path <~ getitem gan "gan_path" in
             mkdir gan_path) in
  do combined_data <-
       (if reload args then
          do _ <- emit (EvPrintStr "Reloading csv data") in
          do path <~ getitem config "output_csv_file" in
          read_csv path
        else
          do lorenz <~ getitem config "lorenz" in
          do trajectory <- generate_lorenz_data lorenz in
          do gan <~ getitem config "gan" in
          do generator <~ getitem gan "generator" in
          do num_cond_inputs <~ getitem generator "num_cond_inputs" in
          do lorenz <~ getitem config "lorenz" in
          do J <~ getitem lorenz "J" in
          do gan <~ getitem config "gan" in
          do x_skip <~ getitem gan "x_skip" in
          do gan <~ getitem config "gan" in
          do t_skip <~ getitem gan "t_skip" in
          do combined_data <-
               call_process_lorenz_data trajectory num_cond_inputs J
                                        x_skip t_skip in
          do lorenz <~ getitem config "lorenz" in
          do nc_file <~ getitem config "output_nc_file" in
          do _ <- call_save_lorenz_output trajectory lorenz nc_file in
          do csv_file <~ getitem config "output_csv_file" in
          do csv_file <~ as_path csv_file in
          do _ <- to_csv combined_data csv_file None in
          do _ <- emit (EvPrintFrame combined_data) in
          ret combined_data) in
  train_lorenz_gan config combined_data.

(** ** Vocabulary of the statements *)

(** A run with one more call in front. *)
Definition after (e : Event scalar) {A} (r : Run scalar Env A)
  : Run scalar Env A :=
  {| outcome := outcome r; final := final r; events := e :: events r |}.

(** The four stages of the pipeline that precede training. *)
Inductive Stage : Type := Integrate | BuildFeatures | PersistRaw | PersistFlat.

(** The stage a call belongs to.  The flat feature file is the table
    written without its index; the scaling tables are written with one. *)
Definition stage_of (e : Event scalar) : option Stage :=
  match e with
  | EvRunLorenz _ _ _ _ _ _ _ _ => Some Integrate
  | EvProcess _ _ _ _ _ => Some BuildFeatures
  | EvSaveLorenz _ _ _ => Some PersistRaw
  | EvToCsv _ None _ => Some PersistFlat
  | _ => None
  end.

Definition stages (evs : list (Event scalar)) : list Stage := omap stage_of evs.

(** The names of the conditioning column of lag [t] and of target column
    [y]. *)
Definition lag_name (t : nat) : string :=
  match t with
  | O => "X_t"
  | S _ => String.append "X_t-" (format_d (Z.of_nat t))
  end.

Definition target_name (y : nat) : string :=
  String.append "Y_" (format_d (Z.of_nat y)).

(** The size of the channel axis of an array of shape (rows, channels, 1),
    read off its first row. *)
Definition channels (a : array3 scalar) : nat := length (default [] (head a)).

(** The order in which [main] goes through the stages. *)
Definition pipeline_order : list Stage :=
  [Integrate; BuildFeatures; PersistRaw; PersistFlat].

(** The calls of [train_gan], of [normalize_data] and of [to_csv] among
    the calls made. *)
Definition train_calls (evs : list (Event scalar))
  : list (train_gan_call scalar) :=
  omap (fun e => match e with EvTrainGan c => Some c | _ => None end) evs.

Definition normalize_calls (evs : list (Event scalar)) : list (array3 scalar) :=
  omap (fun e => match e with EvNormalize a => Some a | _ => None end) evs.

Definition csv_writes (evs : list (Event scalar))
  : list (string * option string * DataFrame scalar) :=
  omap (fun e => match e with
                 | EvToCsv p l df => Some (p, l, df)
                 | _ => None
                 end) evs.

(** A vector of [n] zeros whose first entry is one. *)
Definition one_hot (dt : dtype) (n : Z) : ndarray scalar :=
  {| arr_dtype := dt;
     arr_data := s_of_Z 1 :: replicate (Z.to_nat n - 1) (s_of_Z 0) |}.

(** What the integrator is called with. *)
Record integrator_call : Type := {
  ic_X : ndarray scalar;
  ic_Y : ndarray scalar;
  ic_h : yaml;
  ic_F : yaml;
  ic_b : yaml;
  ic_c : yaml;
  ic_time_step : yaml;
  ic_num_steps : yaml
}.

Definition call_event (a : integrator_call) : Event scalar :=
  EvRunLorenz (ic_X a) (ic_Y a) (ic_h a) (ic_F a) (ic_b a) (ic_c a)
              (ic_time_step a) (ic_num_steps a).

Definition integrate (env : Env) (a : integrator_call)
  : result (Trajectory scalar) :=
  run_lorenz96_truth env (ic_X a) (ic_Y a) (ic_h a) (ic_F a) (ic_b a) (ic_c a)
                     (ic_time_step a) (ic_num_steps a).

(** How many of the positions [b], [b+s], [b+2s], ... lie below [L]. *)
Definition kept (L b s : Z) : Z := Z.max 0 ((L - b + s - 1) / s).

(** The fields of [config["lorenz"]] read before the integrator is called. *)
Definition integrator_fields : list string :=
  ["K"; "J"; "skip"; "h"; "F"; "b"; "c"; "time_step"; "num_steps"].

(** Lines 97-103 up to the call: the values [generate_lorenz_data] computes
    before it calls the integrator, or the exception that stops it. *)
Definition integrator_arguments (config : yaml)
  : result (integrator_call * yaml) :=
  let? K := getitem config "K" in
  let? X := np_zeros K float32 in
  let? J := getitem config "J" in
  let? K' := getitem config "K" in
  let? JK := py_mul J K' in
  let? Y := np_zeros JK float32 in
  let? X := np_setitem X 0 1 in
  let? Y := np_setitem Y 0 1 in
  let? skip := getitem config "skip" in
  let? h := getitem config "h" in
  let? F := getitem config "F" in
  let? b := getitem config "b" in
  let? c := getitem config "c" in
  let? time_step := getitem config "time_step" in
  let? num_steps := getitem config "num_steps" in
  Ok ({| ic_X := X; ic_Y := Y; ic_h := h; ic_F := F; ic_b := b; ic_c := c;
         ic_time_step := time_step; ic_num_steps := num_steps |}, skip).




(** ** Vocabulary of the further properties *)

(** [xs] holds [n] entries, entry [f] being entry [pos f] of [raw]. *)
Definition frames_at {A} (xs raw : list A) (n : Z) (pos : nat -> Z) : Prop :=
  Z.of_nat (length xs) = n /\
  forall f : nat, (f < length xs)%nat -> xs !! f = raw !! Z.to_nat (pos f).

(** Each of the four sequences of [tr] is cut from the one of [raw] in one
    way: from a raw sequence of length [L] come [count L] entries, entry
    [f] being raw entry [pos L f]. *)
Definition cut_as (tr raw : Trajectory scalar) (count : Z -> Z)
    (pos : Z -> nat -> Z) : Prop :=
  let cut {A} (xs a : list A) :=
    frames_at xs a (count (Z.of_nat (length a))) (pos (Z.of_nat (length a))) in
  cut (X_out tr) (X_out raw) /\ cut (Y_out tr) (Y_out raw) /\
  cut (times tr) (times raw) /\ cut (steps tr) (steps raw).

(** Where [a[b::s]] starts in a sequence of length [L] when [b] is
    negative. *)
Definition from_end (b L : Z) : Z := Z.max 0 (L + b).

(** Where [a[b::-s]] starts in a sequence of length [L]. *)
Definition last_from (b L : Z) : Z := Z.min b (L - 1).

(** The kinds of calls [train_lorenz_gan] makes. *)
Inductive Call : Type :=
| Normalize | WriteTable | BuildModel | InitializeGan | TrainGan | OtherCall.

Definition call_of (e : Event scalar) : Call :=
  match e with
  | EvNormalize _ => Normalize
  | EvToCsv _ _ _ => WriteTable
  | EvBuildModel _ _ => BuildModel
  | EvInitializeGan _ _ _ => InitializeGan
  | EvTrainGan _ => TrainGan
  | _ => OtherCall
  end.

Definition calls (evs : list (Event scalar)) : list Call := map call_of evs.

(** The order in which [train_lorenz_gan] makes its calls. *)
Definition training_order : list Call :=
  [Normalize; Normalize; WriteTable; WriteTable; BuildModel; BuildModel;
   InitializeGan; TrainGan].

(** The models built, the calls of [initialize_gan] and the directories
    made, among the calls made. *)
Definition model_builds (evs : list (Event scalar)) : list (string * yaml) :=
  omap (fun e => match e with
                 | EvBuildModel name kwargs => Some (name, kwargs)
                 | _ => None
                 end) evs.

Definition gan_inits (evs : list (Event scalar))
  : list (yaml * optimizer * yaml) :=
  omap (fun e => match e with
                 | EvInitializeGan loss opt metrics => Some (loss, opt, metrics)
                 | _ => None
                 end) evs.

Definition mkdirs (evs : list (Event scalar)) : list string :=
  omap (fun e => match e with EvMkdir p => Some p | _ => None end) evs.

(** An array of shape (rows, chans, depth). *)
Definition has_shape (a : array3 scalar) (rows chans depth : nat) : Prop :=
  length a = rows /\
  Forall (fun row => length row = chans /\
                     Forall (fun cell : list scalar => length cell = depth) row) a.

(** Every row of the table has one cell per column. *)
Definition rectangular (df : DataFrame scalar) : Prop :=
  Forall (fun row => length row = length (columns df)) (values df).

End Driver.


(** * Stand-ins for the collaborators

    Concrete collaborators over the rationals, used to run the script on
    concrete configurations. *)

#[export] Instance Q_numeric : Numeric Q := {
  s_of_Z := inject_Z;
  s_add := Qplus;
  s_div := Qdiv
}.

Definition scale_of (v : yaml) : Q :=
  match v with
  | YInt z => inject_Z z
  | YFloat q => q
  | _ => 0%Q
  end.

(** Modelled from the spec: [run_lorenz96_truth] is not among the sources.
    This stand-in leaves out the dynamics: the state stays where it starts.
    It advances exactly [num_steps] times and hands back one frame per
    step, with [times[f] = steps[f] * time_step]; [initial] further frames
    come first (0, or 1 when the starting state is handed back too).  It
    reads nothing but its arguments. *)
Definition still_integrator (initial : nat) (seed : Z) (X Y : ndarray Q)
    (h F b c time_step num_steps : yaml) : result (Trajectory Q) :=
  match num_steps with
  | YInt n =>
      let count := (initial + Z.to_nat n)%nat in
      let taken := map Z.of_nat (seq 0 count) in
      Ok {| X_out := replicate count (arr_data X);
            Y_out := replicate count (arr_data Y);
            times := map (fun i => (inject_Z i * scale_of time_step)%Q) taken;
            steps := taken |}
  | _ => Raise TypeError
  end.

(** Modelled from the spec: [process_lorenz_data] is not among the sources.
    One row per frame [f] from [num_cond_inputs - 1] on (every [t_skip]-th)
    and per slow index [i] with [i mod x_skip = 0]: the lagged values
    [X_out[f-k][i]], the block [Y_out[f][i*J .. i*J+J-1]], then time and
    step. *)
Definition table_builder (t : Trajectory Q)
    (num_cond_inputs J x_skip t_skip : yaml) : result (DataFrame Q) :=
  match num_cond_inputs, J, x_skip, t_skip with
  | YInt n, YInt j, YInt xs, YInt ts =>
      let n := Z.to_nat n in
      let j := Z.to_nat j in
      let frames :=
        filter (fun f : nat => Z.of_nat (f - (n - 1)) mod ts = 0)
               (seq (n - 1) (length (X_out t) - (n - 1))) in
      let slow :=
        filter (fun i : nat => Z.of_nat i mod xs = 0)
               (seq 0 (length (default [] (X_out t !! 0%nat)))) in
      let row (f i : nat) : list Q :=
        (map (fun k : nat =>
                default 0%Q (default [] (X_out t !! (f - k)%nat) !! i))
             (seq 0 n)
         ++ take j (drop (i * j) (default [] (Y_out t !! f)))
         ++ [default 0%Q (times t !! f);
             inject_Z (default 0 (steps t !! f))])%list in
      let rows := flat_map (fun f => map (row f) slow) frames in
      Ok {| columns := (x_cols_of (map Z.of_nat (seq 0 n))
                        ++ y_cols_of (map Z.of_nat (seq 0 j))
                        ++ ["time"; "step"])%list;
            index := map Z.of_nat (seq 0 (length rows));
            values := rows |}
  | _, _, _, _ => Raise TypeError
  end.

(** Modelled from the spec: [normalize_data] is not among the sources.
    One row of the scaling table per channel (the second axis); the mean
    pools over rows and the trailing axis.  Square roots are not available
    over the rationals, so this stand-in only centres: the scale is 1. *)
Definition centre (a : array3 Q) : result (array3 Q * DataFrame Q) :=
  let channels := length (default [] (a !! 0%nat)) in
  let pooled (c : nat) : list Q :=
    flat_map (fun row => default [] (row !! c)) a in
  let means := map (fun c => np_mean (pooled c)) (seq 0 channels) in
  Ok (map (fun row =>
             zip_with (fun cell m => map (fun v => (v - m)%Q) cell) row means)
          a,
      {| columns := ["mean"; "std"];
         index := map Z.of_nat (seq 0 channels);
         values := map (fun m => [m; 1%Q]) means |}).

Definition stand_in (initial : nat) : Collaborators Q Z unit := {|
  run_lorenz96_truth := still_integrator initial;
  process_lorenz_data := table_builder;
  save_lorenz_output := fun _ _ _ => Ok tt;
  normalize_data := centre;
  generator_conv := fun _ => Ok tt;
  generator_dense := fun _ => Ok tt;
  discriminator_conv := fun _ => Ok tt;
  discriminator_dense := fun _ => Ok tt;
  initialize_gan := fun _ _ _ _ _ => Ok tt;
  train_gan := fun _ _ _ _ => Ok tt
|}.

(** The configuration of the scenario [K=4, J=2, num_steps=100, skip=2,
    burn_in=5], with the remaining fields as in the docstring of [main]. *)
Definition scenario_lorenz : gmap string yaml :=
  list_to_map
    [("K", YInt 4); ("J", YInt 2); ("h", YInt 1); ("b", YInt 10);
     ("c", YInt 10); ("F", YInt 30); ("time_step", YFloat (1 # 1000));
     ("num_steps", YInt 100); ("skip", YInt 2); ("burn_in", YInt 5)].

Definition scenario_generator : gmap string yaml :=
  list_to_map
    [("num_cond_inputs", YInt 3); ("num_random_inputs", YInt 13);
     ("num_outputs", YInt 32); ("activation", YStr "relu");
     ("min_conv_filters", YInt 32); ("min_data_width", YInt 4);
     ("filter_width", YInt 4)].

Definition scenario_discriminator : gmap string yaml :=
  list_to_map
    [("num_cond_inputs", YInt 3); ("num_sample_inputs", YInt 32);
     ("activation", YStr "relu"); ("min_conv_filters", YInt 32);
     ("min_data_width", YInt 4); ("filter_width", YInt 4)].

Definition scenario_gan (output : string) (batch_size : Z) : gmap string yaml :=
  list_to_map
    [("structure", YStr "conv"); ("t_skip", YInt 1); ("x_skip", YInt 1);
     ("output", YStr output);
     ("generator", YMap scenario_generator);
     ("discriminator", YMap scenario_discriminator);
     ("gan_path", YStr "./exp"); ("batch_size", YInt batch_size);
     ("gan_index", YInt 0); ("loss", YStr "binary_crossentropy");
     ("num_epochs", YSeq [YInt 1; YInt 5; YInt 10]);
     ("metrics", YSeq [YStr "accuracy"])].

Definition scenario_with (lorenz : gmap string yaml) (output : string)
    (batch_size : Z) : yaml :=
  YMap (list_to_map
          [("lorenz", YMap lorenz); ("gan", YMap (scenario_gan output batch_size));
           ("output_nc_file", YStr "./exp/lorenz_output.nc");
           ("output_csv_file", YStr "./exp/lorenz_combined_output.csv")]).

Definition scenario : yaml := scenario_with scenario_lorenz "sample" 64.

(** What the stand-in integrator returns on the scenario. *)
Definition scenario_raw : Trajectory Q :=
  let count := 100%nat in
  let taken := map Z.of_nat (seq 0 count) in
  {| X_out := replicate count (arr_data (one_hot float32 4));
     Y_out := replicate count (arr_data (one_hot float32 8));
     times := map (fun i => (inject_Z i * (1 # 1000))%Q) taken;
     steps := taken |}.

(** The scenario with [burn_in] left out of the configuration. *)
Definition scenario_without_burn_in : yaml :=
  scenario_with (delete "burn_in" scenario_lorenz) "sample" 64.

(** A machine on which only the configuration file exists. *)
Definition fresh_world (config : yaml) (seed : Z) : World Q Z :=
  {| disk := {[ "lorenz.yaml" := FYaml config ]};
     writable := fun _ => true;
     hidden := seed |}.

(** A flat feature table of five rows, as a previous run could have left
    it. *)
Definition small_table : DataFrame Q :=
  {| columns := ["X_t"; "X_t-1"; "X_t-2"; "Y_0"; "Y_1"; "time"; "step"];
     index := [0; 1; 2; 3; 4];
     values := [[3; 2; 1; 1; 3; 2 # 1000; 2];
                [4; 3; 2; 2; 6; 3 # 1000; 3];
                [5; 4; 3; 0; 4; 4 # 1000; 4];
                [6; 5; 4; 5; 5; 5 # 1000; 5];
                [7; 6; 5; 7; 1; 6 # 1000; 6]]%Q |}.

(** A machine on which a previous run has left its files. *)
Definition reload_world (config : yaml) : World Q Z :=
  {| disk := list_to_map
               [("lorenz.yaml", FYaml config); ("./exp", FDir);
                ("./exp/lorenz_combined_output.csv", FCsv None small_table)];
     writable := fun _ => true;
     hidden := 0 |}.

(** The scenario with batches of two rows, and with the mean as target. *)
Definition scenario_small : yaml := scenario_with scenario_lorenz "sample" 2.

(** What training on [small_table] calls the collaborators with. *)
Definition small_call : train_gan_call Q :=
  Eval vm_compute in
    default {| tg_Y_norm := []; tg_X_norm := []; tg_batch_size := YInt 0;
               tg_num_random_inputs := YInt 0; tg_gan_path := YInt 0;
               tg_gan_index := YInt 0; tg_num_epochs := YInt 0;
               tg_metrics := YInt 0;
               tg_Y_scaling_values := small_table;
               tg_X_scaling_values := small_table |}
            (head (train_calls
                     (events (train_lorenz_gan (lorenz_gan := stand_in 0)
                                scenario_small small_table
                                (reload_world scenario_small))))).

Definition small_normalized : list (array3 Q) :=
  Eval vm_compute in
    normalize_calls (events (train_lorenz_gan (lorenz_gan := stand_in 0)
                               scenario_small small_table
                               (reload_world scenario_small))).


Definition small_written : list (string * option string * DataFrame Q) :=
  Eval vm_compute in
    csv_writes (events (train_lorenz_gan (lorenz_gan := stand_in 0)
                          scenario_small small_table
                          (reload_world scenario_small))).

(** What [generate_lorenz_data] returns on the scenario. *)
Definition scenario_trimmed : Trajectory Q :=
  match outcome (generate_lorenz_data (lorenz_gan := stand_in 0)
                   (YMap scenario_lorenz) (fresh_world scenario 0)) with
  | Ok tr => tr
  | Raise _ => {| X_out := []; Y_out := []; times := []; steps := [] |}
  end.

(** What the integrator is called with on the scenario. *)
Definition scenario_call : integrator_call (scalar := Q) :=
  {| ic_X := one_hot float32 4; ic_Y := one_hot float32 8;
     ic_h := YInt 1; ic_F := YInt 30; ic_b := YInt 10; ic_c := YInt 10;
     ic_time_step := YFloat (1 # 1000); ic_num_steps := YInt 100 |}.

(** The scenario with other values of [burn_in] and [skip]. *)
Definition scenario_lorenz_with (burn_in skip : Z) : yaml :=
  YMap (<["burn_in" := YInt burn_in]> (<["skip" := YInt skip]> scenario_lorenz)).

(** The scenario with batches of [batch_size] rows. *)
Definition scenario_batch (batch_size : Z) : yaml :=
  scenario_with scenario_lorenz "sample" batch_size.

(** What training on [small_table] calls the trainer with, for batches of
    [batch_size] rows. *)
Definition small_call_with (batch_size : Z) : train_gan_call Q :=
  default small_call
          (head (train_calls
                   (events (train_lorenz_gan (lorenz_gan := stand_in 0)
                              (scenario_batch batch_size) small_table
                              (reload_world (scenario_batch batch_size)))))).

(** A flat feature table made for two conditioning inputs: it has no
    column [X_t-2]. *)
Definition narrow_table : DataFrame Q :=
  {| columns := ["X_t"; "X_t-1"; "Y_0"; "Y_1"; "time"; "step"];
     index := [0; 1];
     values := [[3; 2; 1; 3; 2 # 1000; 2];
                [4; 3; 2; 6; 3 # 1000; 3]]%Q |}.


(** * Properties *)

(** ** The built-ins on small inputs *)

Example slice_from_5_by_2 :
  py_slice [0; 1; 2; 3; 4; 5; 6; 7; 8; 9] (Some 5) None (Some 2) = Ok [5; 7; 9].
Proof. reflexivity. Qed.

Example slice_start_past_the_end :
  py_slice [0; 1; 2] (Some 7) None (Some 2) = Ok [].
Proof. reflexivity. Qed.

Example slice_negative_start :
  py_slice [0; 1; 2; 3; 4] (Some (-2)) None (Some 1) = Ok [3; 4].
Proof. reflexivity. Qed.

Example slice_backwards :
  py_slice [0; 1; 2; 3; 4] (Some 3) None (Some (-2)) = Ok [3; 1].
Proof. reflexivity. Qed.

Example slice_drop_last_two :
  py_slice [0; 1; 2; 3; 4] None (Some (-2)) None = Ok [0; 1; 2].
Proof. reflexivity. Qed.

Example slice_step_zero :
  py_slice [0; 1; 2] (Some 0) None (Some 0) = Raise ValueError.
Proof. reflexivity. Qed.

Example format_04d_pads :
  format_04d (YInt 7) = Ok "0007" /\ format_04d (YInt (-1)) = Ok "-001" /\
  format_04d (YInt 12345) = Ok "12345" /\ format_04d (YStr "7") = Raise ValueError.
Proof. repeat split. Qed.

Example lower_mixed_case : lower "MeAn" = "mean".
Proof. reflexivity. Qed.

Example join_paths :
  join (YStr "./exp") "a.csv" = Ok "./exp/a.csv" /\
  join (YStr "./exp/") "a.csv" = Ok "./exp/a.csv" /\
  join (YStr "") "a.csv" = Ok "a.csv" /\
  join (YStr "./exp") "/a.csv" = Ok "/a.csv".
Proof. repeat split. Qed.

Example x_cols_of_twelve_lags :
  x_cols_of (map Z.of_nat (seq 0 12))
  = ["X_t"; "X_t-1"; "X_t-2"; "X_t-3"; "X_t-4"; "X_t-5"; "X_t-6"; "X_t-7";
     "X_t-8"; "X_t-9"; "X_t-10"; "X_t-11"].
Proof. reflexivity. Qed.

Example kept_on_the_scenario : kept 100 5 2 = 48 /\ kept 101 5 2 = 48.
Proof. split; reflexivity. Qed.

(** ** Slicing *)

Lemma adjust_bound_forward (len bound step : Z) :
  0 <= len -> 0 < step -> 0 <= adjust_bound len bound step <= len.
Proof.
  intros Hlen Hstep. unfold adjust_bound.
  repeat match goal with
         | |- context [?x <? ?y] => destruct (Z.ltb_spec x y)
         | |- context [?x <=? ?y] => destruct (Z.leb_spec x y)
         end; lia.
Qed.

Lemma adjust_bound_backward (len bound step : Z) :
  0 <= len -> step < 0 -> -1 <= adjust_bound len bound step <= len - 1.
Proof.
  intros Hlen Hstep. unfold adjust_bound.
  repeat match goal with
         | |- context [?x <? ?y] => destruct (Z.ltb_spec x y)
         | |- context [?x <=? ?y] => destruct (Z.leb_spec x y)
         end; lia.
Qed.

(** Every position counted by [slice_length] lies between the bounds. *)
Lemma slice_length_forward (start stop step i : Z) :
  0 < step -> 0 <= i < slice_length start stop step ->
  start <= start + i * step < stop.
Proof.
  intros Hstep [Hi Hlt]. unfold slice_length in Hlt.
  destruct (Z.ltb_spec step 0); [lia|].
  destruct (Z.ltb_spec start stop); [|lia].
  assert (step * ((stop - start - 1) / step) <= stop - start - 1)
    by (apply Z.mul_div_le; lia).
  nia.
Qed.

Lemma slice_length_backward (start stop step i : Z) :
  step < 0 -> 0 <= i < slice_length start stop step ->
  stop < start + i * step <= start.
Proof.
  intros Hstep [Hi Hlt]. unfold slice_length in Hlt.
  destruct (Z.ltb_spec step 0); [|lia].
  destruct (Z.ltb_spec stop start); [|lia].
  assert (- step * ((start - stop - 1) / - step) <= start - stop - 1)
    by (apply Z.mul_div_le; lia).
  nia.
Qed.

Lemma slice_positions_in_range (len : nat) (start stop step : option Z) ps :
  slice_positions len start stop step = Ok ps ->
  Forall (fun p => (p < len)%nat) ps.
Proof.
  unfold slice_positions. set (k := default 1 step).
  destruct (Z.eqb_spec k 0) as [|Hk]; [discriminate|].
  intros [= <-]. apply Forall_map, Forall_forall. intros i Hi%elem_of_seq. simpl.
  set (n := Z.of_nat len) in *. assert (0 <= n) by lia.
  destruct (Z.ltb_spec k 0) as [Hneg|Hpos].
  - match goal with
    | |- (Z.to_nat (?a + _ * _) < _)%nat => set (s := a) in *
    end.
    match type of Hi with
    | context [slice_length s ?b k] => set (e := b) in *
    end.
    assert (-1 <= s <= n - 1).
    { subst s. destruct start; [apply adjust_bound_backward|]; lia. }
    assert (-1 <= e <= n - 1).
    { subst e. destruct stop; [apply adjust_bound_backward|]; lia. }
    pose proof (slice_length_backward s e k (Z.of_nat i) Hneg). lia.
  - match goal with
    | |- (Z.to_nat (?a + _ * _) < _)%nat => set (s := a) in *
    end.
    match type of Hi with
    | context [slice_length s ?b k] => set (e := b) in *
    end.
    assert (0 <= s <= n).
    { subst s. destruct start; [apply adjust_bound_forward|]; lia. }
    assert (0 <= e <= n).
    { subst e. destruct stop; [apply adjust_bound_forward|]; lia. }
    pose proof (slice_length_forward s e k (Z.of_nat i)). lia.
Qed.

(** Looking up positions that are all in range loses none of them. *)
Lemma omap_lookup_in_range {A} (a : list A) (ps : list nat) :
  Forall (fun p => (p < length a)%nat) ps ->
  length (omap (fun p : nat => a !! p) ps) = length ps /\
  forall (f p : nat), ps !! f = Some p ->
                      omap (fun p : nat => a !! p) ps !! f = a !! p.
Proof.
  induction 1 as [|p ps Hp _ [IHlen IHget]]; [split; [done|intros ? ?; done]|].
  destruct (lookup_lt_is_Some_2 a p Hp) as [x Hx].
  cbn. rewrite Hx. cbn. split; [by rewrite IHlen|].
  intros [|f] q; cbn.
  - by intros [= <-].
  - apply IHget.
Qed.

(** A slice is read off the positions, which depend on the sequence only
    through its length. *)
Lemma py_slice_positions {A} (a : list A) (start stop step : option Z) xs :
  py_slice a start stop step = Ok xs ->
  exists ps, slice_positions (length a) start stop step = Ok ps /\
             length xs = length ps /\
             forall (f p : nat), ps !! f = Some p ->
                                 (p < length a)%nat /\ xs !! f = a !! p.
Proof.
  unfold py_slice.
  destruct (slice_positions _ _ _ _) as [ps|] eqn:Hps; [|discriminate].
  cbn. intros [= <-]. exists ps.
  pose proof (slice_positions_in_range _ _ _ _ _ Hps) as Hin.
  destruct (omap_lookup_in_range a ps Hin) as [Hlen Hget].
  split; [done|]. split; [done|]. intros f p Hf. split; [|by apply Hget].
  by eapply (Forall_lookup_1 _ _ _ _ Hin).
Qed.

(** [a[b::s]] for a start that is not negative and a positive step: the
    elements at [b], [b+s], [b+2s], ... *)
Lemma py_slice_from_start {A} (a : list A) (b s : Z) :
  0 <= b -> 1 <= s ->
  exists xs,
    py_slice a (Some b) None (Some s) = Ok xs /\
    Z.of_nat (length xs) = Z.max 0 ((Z.of_nat (length a) - b + s - 1) / s) /\
    forall f : nat, (f < length xs)%nat ->
                    xs !! f = a !! (Z.to_nat b + f * Z.to_nat s)%nat.
Proof.
  intros Hb Hs.
  destruct (slice_positions (length a) (Some b) None (Some s)) as [ps|] eqn:Hps.
  2:{ unfold slice_positions in Hps. cbn in Hps.
      destruct (Z.eqb_spec s 0); [lia|discriminate]. }
  pose proof (slice_positions_in_range _ _ _ _ _ Hps) as Hin.
  destruct (omap_lookup_in_range a ps Hin) as [Hlen Hget].
  exists (omap (fun p : nat => a !! p) ps).
  split; [unfold py_slice; by rewrite Hps|].
  unfold slice_positions in Hps. cbn in Hps.
  destruct (Z.eqb_spec s 0) as [|_]; [lia|].
  destruct (Z.ltb_spec s 0) as [|_]; [lia|].
  injection Hps as <-.
  set (n := Z.of_nat (length a)) in *.
  assert (Hcount : slice_length (adjust_bound n b s) n s
                   = Z.max 0 ((n - b + s - 1) / s)).
  { unfold slice_length, adjust_bound.
    destruct (Z.ltb_spec s 0); [lia|]. destruct (Z.ltb_spec b 0); [lia|].
    destruct (Z.leb_spec n b).
    - destruct (Z.ltb_spec n n); [lia|].
      assert ((n - b + s - 1) / s <= 0); [|lia].
      assert ((n - b + s - 1) / s < 1); [|lia].
      apply Z.div_lt_upper_bound; lia.
    - destruct (Z.ltb_spec b n); [|lia].
      replace (n - b + s - 1) with (n - b - 1 + 1 * s) by lia.
      rewrite Z.div_add by lia.
      assert (0 <= (n - b - 1) / s) by (apply Z.div_pos; lia). lia. }
  rewrite length_map, length_seq in Hlen.
  split.
  - rewrite Hlen, Hcount. rewrite Z2Nat.id; [done|lia].
  - intros f Hf. rewrite Hlen in Hf. apply Hget.
    rewrite list_lookup_fmap, lookup_seq_lt by done. cbn. f_equal.
    assert (adjust_bound n b s = b) as ->; [|nia].
    unfold adjust_bound. destruct (Z.ltb_spec b 0); [lia|].
    destruct (Z.leb_spec n b); [|done].
    rewrite Hcount in Hf.
    assert ((n - b + s - 1) / s < 1) by (apply Z.div_lt_upper_bound; lia).
    lia.
Qed.

Lemma omap_lookup_seq {A} (a : list A) (k m : nat) :
  (k + m <= length a)%nat ->
  omap (fun p : nat => a !! p) (seq k m) = take m (drop k a).
Proof.
  revert k. induction m as [|m IH]; intros k Hk; [done|].
  destruct (lookup_lt_is_Some_2 a k) as [x Hx]; [lia|].
  cbn. rewrite Hx. cbn. rewrite IH by lia.
  by rewrite (drop_S _ _ _ Hx).
Qed.

(** [a[:-t]] for a positive [t]: all but the last [t] elements. *)
Lemma py_slice_drop_tail {A} (a : list A) (t : Z) :
  0 < t ->
  py_slice a None (Some (- t)) None = Ok (take (length a - Z.to_nat t) a).
Proof.
  intros Ht. unfold py_slice, slice_positions. cbn.
  set (n := Z.of_nat (length a)).
  assert (adjust_bound n (- t) 1 = Z.max 0 (n - t)) as ->.
  { unfold adjust_bound. destruct (Z.ltb_spec (- t) 0); [|lia].
    replace (- t + n) with (n - t) by lia.
    destruct (Z.ltb_spec (n - t) 0); cbn; lia. }
  assert ((if 0 <? Z.max 0 (n - t)
           then (Z.max 0 (n - t) - 0 - 1) / 1 + 1 else 0)
          = Z.max 0 (n - t)) as ->.
  { destruct (Z.ltb_spec 0 (Z.max 0 (n - t))); [|lia].
    rewrite Z.div_1_r. lia. }
  f_equal.
  rewrite (map_ext _ (fun i : nat => i)) by (intros i; lia).
  rewrite map_id.
  replace (Z.to_nat (Z.max 0 (n - t))) with (length a - Z.to_nat t)%nat by lia.
  rewrite omap_lookup_seq by lia. by rewrite drop_0.
Qed.


(** ** The monad *)

Section DriverFacts.
Context {scalar Env model : Type}.
Context {numeric : Numeric scalar} {lorenz_gan : Collaborators scalar Env model}.

Lemma bind_lift {A B} (r : result A) (k : A -> Py B) (w : World scalar Env) :
  bind (lift r) k w = match r with
                      | Ok a => k a w
                      | Raise e => quiet (Raise e) w
                      end.
Proof. unfold bind, lift. destruct r; cbn; [by destruct (k a w)|done]. Qed.

Lemma bind_ret {A B} (a : A) (k : A -> Py B) (w : World scalar Env) :
  bind (ret a) k w = k a w.
Proof. apply (bind_lift (Ok a)). Qed.

Lemma bind_emit {B} (e : Event scalar) (k : unit -> Py B) (w : World scalar Env) :
  bind (emit e) k w = after e (k tt w).
Proof. done. Qed.

Lemma bind_assoc {A B C} (m : Py A) (k : A -> Py B) (k' : B -> Py C)
    (w : World scalar Env) :
  bind (bind m k) k' w = bind m (fun a => bind (k a) k') w.
Proof.
  unfold bind. cbn. destruct (outcome (m w)); cbn; [|done].
  destruct (outcome (k a (final (m w)))); cbn; [|done].
  by rewrite app_assoc.
Qed.

Lemma bind_write_file {B} (p : string) (f : File scalar) (k : unit -> Py B)
    (w : World scalar Env) :
  bind (write_file p f) k w =
  if writable w p then k tt (wrote w p f) else quiet (Raise (OSError p)) w.
Proof.
  unfold bind, write_file. destruct (writable w p); cbn; [|done].
  by destruct (k tt _).
Qed.

Lemma bind_to_csv {B} (df : DataFrame scalar) (p : string)
    (label : option string) (k : unit -> Py B) (w : World scalar Env) :
  bind (to_csv df p label) k w =
  after (EvToCsv p label df)
        (if writable w p then k tt (wrote w p (FCsv label df))
         else quiet (Raise (OSError p)) w).
Proof.
  unfold to_csv. rewrite bind_assoc, bind_emit, bind_write_file. done.
Qed.

Lemma bind_call_normalize_data {B} (a : array3 scalar)
    (k : array3 scalar * DataFrame scalar -> Py B) (w : World scalar Env) :
  bind (call_normalize_data a) k w =
  after (EvNormalize a)
        match normalize_data a with
        | Ok x => k x w
        | Raise e => quiet (Raise e) w
        end.
Proof.
  unfold call_normalize_data. by rewrite bind_assoc, bind_emit, bind_lift.
Qed.

Lemma bind_call_builder {B} (name : string) (builder : yaml -> result model)
    (kwargs : yaml) (k : model -> Py B) (w : World scalar Env) :
  bind (call_builder name builder kwargs) k w =
  after (EvBuildModel name kwargs)
        match builder kwargs with
        | Ok x => k x w
        | Raise e => quiet (Raise e) w
        end.
Proof. unfold call_builder. by rewrite bind_assoc, bind_emit, bind_lift. Qed.

Lemma bind_call_initialize_gan {B} (gen_model disc_model : model) (loss : yaml)
    (opt : optimizer) (metrics : yaml) (k : model -> Py B)
    (w : World scalar Env) :
  bind (call_initialize_gan gen_model disc_model loss opt metrics) k w =
  after (EvInitializeGan loss opt metrics)
        match initialize_gan gen_model disc_model loss opt metrics with
        | Ok x => k x w
        | Raise e => quiet (Raise e) w
        end.
Proof.
  unfold call_initialize_gan. by rewrite bind_assoc, bind_emit, bind_lift.
Qed.

Lemma call_train_gan_run (gen_model disc_model gen_disc : model)
    (call : train_gan_call scalar) (w : World scalar Env) :
  call_train_gan gen_model disc_model gen_disc call w =
  after (EvTrainGan call)
        (quiet (train_gan gen_model disc_model gen_disc call) w).
Proof. done. Qed.

(** ** [generate_lorenz_data] *)

(** The function evaluates its arguments, calls the integrator once, and
    trims what comes back. *)
Lemma generate_lorenz_data_unfold (config : yaml) (w : World scalar Env) :
  generate_lorenz_data config w =
  match integrator_arguments config with
  | Raise e => quiet (Raise e) w
  | Ok (a, skip) =>
      {| outcome := rbind (integrate (hidden w) a) (trimmed config skip);
         final := w;
         events := [call_event a] |}
  end.
Proof.
  unfold generate_lorenz_data, integrator_arguments.
  repeat (rewrite bind_lift; cbn [rbind];
          try match goal with
              | |- match ?r with _ => _ end = _ =>
                  destruct r; cbn [rbind]; [|done]
              end).
  unfold call_run_lorenz96_truth, bind, emit, integrate, call_event, lift, quiet.
  cbn. by destruct (run_lorenz96_truth _ _ _ _ _ _ _ _ _).
Qed.

(** Zeros with the first entry set to one. *)
Lemma zeros_then_one (shape : yaml) (dt : dtype) (a a' : ndarray scalar) :
  np_zeros shape dt = Ok a -> np_setitem a 0 1 = Ok a' ->
  exists n, shape = YInt n /\ 1 <= n /\ a' = one_hot dt n.
Proof.
  destruct shape as [n| | | |]; try discriminate. cbn.
  destruct (Z.ltb_spec n 0); [discriminate|]. intros [= <-].
  unfold np_setitem. cbn. rewrite length_replicate.
  destruct (Z.leb_spec (Z.of_nat (Z.to_nat n)) 0); [discriminate|].
  intros [= <-]. exists n. split; [done|]. split; [lia|].
  unfold one_hot. f_equal.
  destruct (Z.to_nat n) as [|m] eqn:Hm; [lia|]. cbn. by rewrite Nat.sub_0_r.
Qed.

Lemma one_hot_built (dt : dtype) (n : Z) :
  1 <= n ->
  exists a, np_zeros (YInt n) dt = Ok a /\ np_setitem a 0 1 = Ok (one_hot dt n).
Proof.
  intros Hn. eexists. cbn. destruct (Z.ltb_spec n 0); [lia|]. split; [done|].
  unfold np_setitem. cbn. rewrite length_replicate.
  destruct (Z.leb_spec (Z.of_nat (Z.to_nat n)) 0); [lia|].
  unfold one_hot. do 2 f_equal.
  destruct (Z.to_nat n) as [|m] eqn:Hm; [lia|]. cbn. by rewrite Nat.sub_0_r.
Qed.

Lemma py_mul_int (J : yaml) (k n : Z) :
  py_mul J (YInt k) = Ok (YInt n) -> exists j, J = YInt j /\ n = j * k.
Proof. destruct J; try discriminate. cbn. intros [= <-]. eauto. Qed.

(** When the arguments are computed, the configuration has every field the
    call needs, [K] and [J] are positive integers, and the state handed
    over is the fixed one. *)
Lemma integrator_arguments_inv (config : yaml) (a : integrator_call) (skip : yaml) :
  integrator_arguments config = Ok (a, skip) ->
  exists k j,
    1 <= k /\ 1 <= j /\
    getitem config "K" = Ok (YInt k) /\ getitem config "J" = Ok (YInt j) /\
    ic_X a = one_hot float32 k /\ ic_Y a = one_hot float32 (j * k) /\
    getitem config "skip" = Ok skip /\
    getitem config "h" = Ok (ic_h a) /\ getitem config "F" = Ok (ic_F a) /\
    getitem config "b" = Ok (ic_b a) /\ getitem config "c" = Ok (ic_c a) /\
    getitem config "time_step" = Ok (ic_time_step a) /\
    getitem config "num_steps" = Ok (ic_num_steps a).
Proof.
  unfold integrator_arguments.
  destruct (getitem config "K") as [K|] eqn:HK; [cbn|discriminate].
  destruct (np_zeros K float32) as [X0|] eqn:HX0; [cbn|discriminate].
  destruct (getitem config "J") as [J|] eqn:HJ; [cbn|discriminate].
  destruct (py_mul J K) as [JK|] eqn:HJK; [cbn|discriminate].
  destruct (np_zeros JK float32) as [Y0|] eqn:HY0; [cbn|discriminate].
  destruct (np_setitem X0 0 1) as [X|] eqn:HX; [cbn|discriminate].
  destruct (np_setitem Y0 0 1) as [Y|] eqn:HY; [cbn|discriminate].
  repeat match goal with
         | |- context [getitem config ?key] =>
             destruct (getitem config key); [cbn|discriminate]
         end.
  intros [= <- <-]. cbn.
  destruct (zeros_then_one _ _ _ _ HX0 HX) as (k & -> & Hk & ->).
  destruct (zeros_then_one _ _ _ _ HY0 HY) as (n & -> & Hn & ->).
  destruct (py_mul_int _ _ _ HJK) as (j & -> & ->).
  exists k, j. repeat split; try done. nia.
Qed.

Lemma integrator_arguments_ok (config : yaml) (k j : Z)
    (skip h F b c time_step num_steps : yaml) :
  1 <= k -> 1 <= j ->
  getitem config "K" = Ok (YInt k) -> getitem config "J" = Ok (YInt j) ->
  getitem config "skip" = Ok skip ->
  getitem config "h" = Ok h -> getitem config "F" = Ok F ->
  getitem config "b" = Ok b -> getitem config "c" = Ok c ->
  getitem config "time_step" = Ok time_step ->
  getitem config "num_steps" = Ok num_steps ->
  integrator_arguments config =
  Ok ({| ic_X := one_hot float32 k; ic_Y := one_hot float32 (j * k);
         ic_h := h; ic_F := F; ic_b := b; ic_c := c;
         ic_time_step := time_step; ic_num_steps := num_steps |}, skip).
Proof.
  intros Hk Hj HK HJ Hskip Hh HF Hb Hc Hts Hns.
  unfold integrator_arguments.
  rewrite HK, HJ, Hskip, Hh, HF, Hb, Hc, Hts, Hns.
  destruct (one_hot_built float32 k Hk) as (X0 & HX0 & HX).
  destruct (one_hot_built float32 (j * k)) as (Y0 & HY0 & HY); [nia|].
  cbn [rbind py_mul]. rewrite HX0. cbn [rbind]. rewrite HY0. cbn [rbind].
  rewrite HX. cbn [rbind]. rewrite HY. done.
Qed.

Lemma slice_from_inv {A} (a : list A) (start step : yaml) (xs : list A) :
  slice_from a start step = Ok xs ->
  exists b s, start = YInt b /\ step = YInt s /\ s <> 0 /\
              py_slice a (Some b) None (Some s) = Ok xs.
Proof.
  unfold slice_from. destruct step as [s| | | |]; try discriminate. cbn.
  destruct (Z.eqb_spec s 0); [discriminate|].
  destruct start as [b| | | |]; try discriminate. cbn. eauto 6.
Qed.

Lemma trimmed_inv (config skip : yaml) (raw tr : Trajectory scalar) :
  trimmed config skip raw = Ok tr ->
  exists b s,
    getitem config "burn_in" = Ok (YInt b) /\ skip = YInt s /\ s <> 0 /\
    py_slice (X_out raw) (Some b) None (Some s) = Ok (X_out tr) /\
    py_slice (Y_out raw) (Some b) None (Some s) = Ok (Y_out tr) /\
    py_slice (times raw) (Some b) None (Some s) = Ok (times tr) /\
    py_slice (steps raw) (Some b) None (Some s) = Ok (steps tr).
Proof.
  unfold trimmed.
  destruct (getitem config "burn_in") as [burn_in|] eqn:Hb; [cbn|discriminate].
  destruct (slice_from (X_out raw) burn_in skip) as [X'|] eqn:HX; [cbn|discriminate].
  destruct (slice_from (Y_out raw) burn_in skip) as [Y'|] eqn:HY; [cbn|discriminate].
  destruct (slice_from (times raw) burn_in skip) as [t'|] eqn:Ht; [cbn|discriminate].
  destruct (slice_from (steps raw) burn_in skip) as [s'|] eqn:Hs; [cbn|discriminate].
  intros [= <-]. cbn.
  destruct (slice_from_inv _ _ _ _ HX) as (b & s & -> & -> & Hne & HX').
  destruct (slice_from_inv _ _ _ _ HY) as (? & ? & [= <-] & [= <-] & _ & HY').
  destruct (slice_from_inv _ _ _ _ Ht) as (? & ? & [= <-] & [= <-] & _ & Ht').
  destruct (slice_from_inv _ _ _ _ Hs) as (? & ? & [= <-] & [= <-] & _ & Hs').
  exists b, s. done.
Qed.

Lemma slice_from_forward {A} (a : list A) (b s : Z) :
  0 <= b -> 1 <= s ->
  exists xs,
    slice_from a (YInt b) (YInt s) = Ok xs /\
    Z.of_nat (length xs) = kept (Z.of_nat (length a)) b s /\
    forall f : nat, (f < length xs)%nat ->
                    xs !! f = a !! (Z.to_nat b + f * Z.to_nat s)%nat.
Proof.
  intros Hb Hs. destruct (py_slice_from_start a b s Hb Hs) as (xs & Hxs & Hrest).
  exists xs. split; [|done]. unfold slice_from. cbn.
  by destruct (Z.eqb_spec s 0); [lia|].
Qed.

(** What a successful run of [generate_lorenz_data] consists of. *)
Lemma generate_lorenz_data_inv (config : yaml) (w : World scalar Env)
    (tr : Trajectory scalar) :
  outcome (generate_lorenz_data config w) = Ok tr ->
  exists a skip raw,
    integrator_arguments config = Ok (a, skip) /\
    integrate (hidden w) a = Ok raw /\
    trimmed config skip raw = Ok tr /\
    events (generate_lorenz_data config w) = [call_event a].
Proof.
  rewrite generate_lorenz_data_unfold.
  destruct (integrator_arguments config) as [[a skip]|]; [cbn|discriminate].
  destruct (integrate (hidden w) a) as [raw|] eqn:Hraw; [cbn|discriminate].
  intros Htr. by exists a, skip, raw.
Qed.

End DriverFacts.

(** ** Claims about [generate_lorenz_data] *)

Section GenerateClaims.
Context {scalar Env model : Type}.
Context {numeric : Numeric scalar} {lorenz_gan : Collaborators scalar Env model}.

(** C1 (as amended).  For every configuration with [skip >= 1] and
    [burn_in >= 0], the function first discards the first [burn_in] frames
    of the raw trajectory the integrator returned and then keeps every
    [skip]-th of the remaining ones: frame [f] of the result is raw frame
    [burn_in + f * skip], and the number of frames handed on is the number
    of such positions below the raw length [L], that is
    [max 0 (ceil ((L - burn_in) / skip))]. *)
Theorem frames_after_burn_in_then_skip (config : yaml) (w : World scalar Env)
    (k j burn_in skip : Z) (h F b c time_step num_steps : yaml)
    (raw : Trajectory scalar) :
  1 <= k -> 1 <= j -> 0 <= burn_in -> 1 <= skip ->
  getitem config "K" = Ok (YInt k) -> getitem config "J" = Ok (YInt j) ->
  getitem config "skip" = Ok (YInt skip) ->
  getitem config "burn_in" = Ok (YInt burn_in) ->
  getitem config "h" = Ok h -> getitem config "F" = Ok F ->
  getitem config "b" = Ok b -> getitem config "c" = Ok c ->
  getitem config "time_step" = Ok time_step ->
  getitem config "num_steps" = Ok num_steps ->
  run_lorenz96_truth (hidden w) (one_hot float32 k) (one_hot float32 (j * k))
                     h F b c time_step num_steps = Ok raw ->
  exists tr,
    outcome (generate_lorenz_data config w) = Ok tr /\
    Z.of_nat (length (X_out tr)) = kept (Z.of_nat (length (X_out raw))) burn_in skip /\
    Z.of_nat (length (Y_out tr)) = kept (Z.of_nat (length (Y_out raw))) burn_in skip /\
    Z.of_nat (length (times tr)) = kept (Z.of_nat (length (times raw))) burn_in skip /\
    Z.of_nat (length (steps tr)) = kept (Z.of_nat (length (steps raw))) burn_in skip /\
    forall f : nat,
      let p := (Z.to_nat burn_in + f * Z.to_nat skip)%nat in
      ((f < length (X_out tr))%nat -> X_out tr !! f = X_out raw !! p) /\
      ((f < length (Y_out tr))%nat -> Y_out tr !! f = Y_out raw !! p) /\
      ((f < length (times tr))%nat -> times tr !! f = times raw !! p) /\
      ((f < length (steps tr))%nat -> steps tr !! f = steps raw !! p).
Proof.
  intros Hk Hj Hb Hs HK HJ Hskip Hburn Hh HF Hbb Hc Hts Hns Hraw.
  rewrite generate_lorenz_data_unfold.
  rewrite (integrator_arguments_ok config k j (YInt skip) h F b c
             time_step num_steps) by done.
  unfold integrate. cbn. rewrite Hraw. cbn [rbind].
  unfold trimmed. rewrite Hburn. cbn [rbind].
  destruct (slice_from_forward (X_out raw) burn_in skip Hb Hs) as (X' & -> & HXn & HX).
  destruct (slice_from_forward (Y_out raw) burn_in skip Hb Hs) as (Y' & -> & HYn & HY).
  destruct (slice_from_forward (times raw) burn_in skip Hb Hs) as (t' & -> & Htn & Ht).
  destruct (slice_from_forward (steps raw) burn_in skip Hb Hs) as (s' & -> & Hsn & Hs').
  cbn [rbind]. eexists. split; [reflexivity|]. cbn.
  repeat split; auto.
Qed.

(** C10.  The trim selects the same positions in all four sequences: when
    the integrator returned four sequences of one length, the four returned
    sequences have one length too, and the entries at frame position [f]
    of all four come from the same raw position [p]. *)
Theorem trim_selects_the_same_steps (config : yaml) (w : World scalar Env)
    (tr : Trajectory scalar) :
  outcome (generate_lorenz_data config w) = Ok tr ->
  exists X Y h F b c time_step num_steps raw,
    events (generate_lorenz_data config w)
    = [EvRunLorenz X Y h F b c time_step num_steps] /\
    run_lorenz96_truth (hidden w) X Y h F b c time_step num_steps = Ok raw /\
    (length (Y_out raw) = length (X_out raw) ->
     length (times raw) = length (X_out raw) ->
     length (steps raw) = length (X_out raw) ->
     exists ps : list nat,
       length (X_out tr) = length ps /\ length (Y_out tr) = length ps /\
       length (times tr) = length ps /\ length (steps tr) = length ps /\
       forall f p : nat,
         ps !! f = Some p ->
         (p < length (X_out raw))%nat /\
         X_out tr !! f = X_out raw !! p /\ Y_out tr !! f = Y_out raw !! p /\
         times tr !! f = times raw !! p /\ steps tr !! f = steps raw !! p).
Proof.
  intros Hok.
  destruct (generate_lorenz_data_inv _ _ _ Hok) as (a & skip & raw & _ & Hraw & Htr & Hev).
  exists (ic_X a), (ic_Y a), (ic_h a), (ic_F a), (ic_b a), (ic_c a),
         (ic_time_step a), (ic_num_steps a), raw.
  split; [exact Hev|]. split; [exact Hraw|]. intros HY Ht Hs.
  destruct (trimmed_inv _ _ _ _ Htr) as (b & s & _ & _ & _ & HX' & HY' & Ht' & Hs').
  destruct (py_slice_positions _ _ _ _ _ HX') as (ps & Hps & HXn & HXget).
  destruct (py_slice_positions _ _ _ _ _ HY') as (ps1 & Hps1 & HYn & HYget).
  destruct (py_slice_positions _ _ _ _ _ Ht') as (ps2 & Hps2 & Htn & Htget).
  destruct (py_slice_positions _ _ _ _ _ Hs') as (ps3 & Hps3 & Hsn & Hsget).
  rewrite HY, Hps in Hps1. rewrite Ht, Hps in Hps2. rewrite Hs, Hps in Hps3.
  injection Hps1 as <-. injection Hps2 as <-. injection Hps3 as <-.
  exists ps. do 4 (split; [done|]). intros f p Hf.
  destruct (HXget f p Hf) as [Hlt HXf]. destruct (HYget f p Hf) as [_ HYf].
  destruct (Htget f p Hf) as [_ Htf]. destruct (Hsget f p Hf) as [_ Hsf].
  done.
Qed.


(** C6 (as amended).  The configuration is not validated up front; a
    field is checked where it is used.  (1) When one of the fields read for
    the integrator call is missing, or [K] or [J] is an integer below 1,
    the function raises having called nothing.  (2) [time_step] and
    [num_steps] reach the integrator as configured, unchecked.
    (3) [burn_in] is read once the integrator has returned: when it is
    missing, the run ends with that error after the integrator call. *)
Theorem fields_are_checked_where_used (config : yaml) (w : World scalar Env) :
  ((exists key e, key ∈ integrator_fields /\ getitem config key = Raise e) \/
   (exists k, getitem config "K" = Ok (YInt k) /\ k < 1) \/
   (exists j, getitem config "J" = Ok (YInt j) /\ j < 1) ->
   exists e, generate_lorenz_data config w = quiet (Raise e) w) /\
  (forall X Y h F b c time_step num_steps,
      EvRunLorenz X Y h F b c time_step num_steps
        ∈ events (generate_lorenz_data config w) ->
      getitem config "time_step" = Ok time_step /\
      getitem config "num_steps" = Ok num_steps) /\
  (forall X Y h F b c time_step num_steps raw e,
      events (generate_lorenz_data config w)
      = [EvRunLorenz X Y h F b c time_step num_steps] ->
      run_lorenz96_truth (hidden w) X Y h F b c time_step num_steps = Ok raw ->
      getitem config "burn_in" = Raise e ->
      outcome (generate_lorenz_data config w) = Raise e).
Proof.
  rewrite generate_lorenz_data_unfold.
  destruct (integrator_arguments config) as [[a skip]|e0] eqn:Hargs.
  - destruct (integrator_arguments_inv _ _ _ Hargs)
      as (k & j & Hk & Hj & HK & HJ & _ & _ & Hskip & Hh & HF & Hb & Hc & Hts & Hns).
    split; [|split].
    + intros [(key & e & Hin & Hkey)|[(k' & HK' & Hlt)|(j' & HJ' & Hlt)]].
      * unfold integrator_fields in Hin.
        repeat match goal with
               | Hin : _ ∈ _ :: _ |- _ => apply elem_of_cons in Hin as [->|Hin]
               | Hin : _ ∈ [] |- _ => by apply elem_of_nil in Hin
               end; congruence.
      * rewrite HK in HK'. injection HK' as <-. lia.
      * rewrite HJ in HJ'. injection HJ' as <-. lia.
    + cbn. intros X Y h F b c ts ns Hin.
      apply list_elem_of_singleton in Hin. unfold call_event in Hin.
      injection Hin as ? ? ? ? ? ? ? ?. by subst.
    + cbn. intros X Y h F b c ts ns raw e [= ? ? ? ? ? ? ? ?] Hraw Hburn. subst.
      unfold integrate. rewrite Hraw. cbn. unfold trimmed. by rewrite Hburn.
  - split; [|split].
    + intros _. by exists e0.
    + cbn. intros X Y h F b c ts ns Hin. by apply elem_of_nil in Hin.
    + cbn. discriminate.
Qed.

End GenerateClaims.


Section Unattainable.
Context {scalar Env model : Type}.
Context {numeric : Numeric scalar} {lorenz_gan : Collaborators scalar Env model}.

Lemma trimmed_forward (config : yaml) (raw : Trajectory scalar) (b s : Z) :
  getitem config "burn_in" = Ok (YInt b) -> 0 <= b -> 1 <= s ->
  exists tr,
    trimmed config (YInt s) raw = Ok tr /\
    Z.of_nat (length (X_out tr)) = kept (Z.of_nat (length (X_out raw))) b s.
Proof.
  intros Hburn Hb Hs. unfold trimmed. rewrite Hburn. cbn [rbind].
  destruct (slice_from_forward (X_out raw) b s Hb Hs) as (X' & -> & HXn & _).
  destruct (slice_from_forward (Y_out raw) b s Hb Hs) as (Y' & -> & _).
  destruct (slice_from_forward (times raw) b s Hb Hs) as (t' & -> & _).
  destruct (slice_from_forward (steps raw) b s Hb Hs) as (s' & -> & _).
  cbn [rbind]. eexists. split; [reflexivity|]. done.
Qed.

(** The frame count [floor (num_steps / skip) - burn_in] cannot be had
    from any integrator.  The integrator is not told [skip] or [burn_in],
    so on the scenario it returns one raw trajectory whatever they are;
    with [skip = 1, burn_in = 0] the count asks for 100 raw frames, and
    then [skip = 2, burn_in = 5] yields 48 frames, not 45. *)
Theorem claimed_frame_count_is_unattainable (w : World scalar Env) :
  ~ ((exists tr,
         outcome (generate_lorenz_data
                    (YMap (<["skip" := YInt 1]>
                             (<["burn_in" := YInt 0]> scenario_lorenz))) w)
         = Ok tr /\
         Z.of_nat (length (X_out tr)) = 100 / 1 - 0) /\
     (exists tr,
         outcome (generate_lorenz_data (YMap scenario_lorenz) w) = Ok tr /\
         Z.of_nat (length (X_out tr)) = 100 / 2 - 5)).
Proof.
  intros [(tr1 & H1 & L1) (tr2 & H2 & L2)].
  rewrite generate_lorenz_data_unfold in H1, H2.
  rewrite (integrator_arguments_ok _ 4 2 (YInt 1) (YInt 1) (YInt 30) (YInt 10)
             (YInt 10) (YFloat (1 # 1000)) (YInt 100)) in H1;
    [|lia|lia|reflexivity..].
  rewrite (integrator_arguments_ok _ 4 2 (YInt 2) (YInt 1) (YInt 30) (YInt 10)
             (YInt 10) (YFloat (1 # 1000)) (YInt 100)) in H2;
    [|lia|lia|reflexivity..].
  cbn [outcome] in H1, H2.
  destruct (integrate (hidden w) _) as [raw|]; [|discriminate].
  cbn [rbind] in H1, H2.
  destruct (trimmed_forward
              (YMap (<["skip" := YInt 1]>
                       (<["burn_in" := YInt 0]> scenario_lorenz))) raw 0 1)
    as (t1 & Ht1 & Hn1); [reflexivity|lia|lia|].
  destruct (trimmed_forward (YMap scenario_lorenz) raw 5 2)
    as (t2 & Ht2 & Hn2); [reflexivity|lia|lia|].
  rewrite Ht1 in H1. rewrite Ht2 in H2.
  injection H1 as <-. injection H2 as <-.
  rewrite Hn1 in L1. rewrite Hn2 in L2. unfold kept in L1, L2.
  change (100 / 1 - 0) with 100 in L1. change (100 / 2 - 5) with 45 in L2.
  rewrite Z.div_1_r in L1.
  assert (Z.of_nat (length (X_out raw)) = 100) as Hraw by lia.
  rewrite Hraw in L2. vm_compute in L2. discriminate.
Qed.

End Unattainable.

(** ** Pieces of [train_lorenz_gan] *)

Section TrainFacts.
Context {scalar Env model : Type}.
Context {numeric : Numeric scalar} {lorenz_gan : Collaborators scalar Env model}.

Lemma fold_left_snoc {A B} (f : A -> B) (l : list A) (acc : list B) :
  fold_left (fun acc t => (acc ++ [f t])%list) l acc = (acc ++ map f l)%list.
Proof.
  revert acc. induction l as [|t l IH]; intros acc; cbn.
  - by rewrite app_nil_r.
  - by rewrite IH, <- app_assoc.
Qed.

(** The loop of lines 120-125 names lag 0 [X_t] and lag [t] [X_t-t]. *)
Lemma x_cols_of_map (x_time_lags : list Z) :
  x_cols_of x_time_lags
  = map (fun t => if t =? 0 then "X_t" else String.append "X_t-" (format_d t))
        x_time_lags.
Proof. unfold x_cols_of. by rewrite fold_left_snoc. Qed.

Lemma py_mod_inv (a : Z) (b : yaml) (z : Z) :
  py_mod a b = Ok z -> exists B, b = YInt B /\ B <> 0 /\ z = a mod B.
Proof.
  destruct b as [B| | | |]; try discriminate. cbn.
  destruct (Z.eqb_spec B 0); [discriminate|]. intros [= <-]. eauto.
Qed.

(** Lines 140 and 150-152 on two arrays of [N] rows and a batch size
    [B >= 1]: both keep their first [N - N mod B] rows. *)
Lemma trim_rows_take {A} (Y_norm X_norm : list A) (B : Z) :
  1 <= B -> length Y_norm = length X_norm ->
  let N := length X_norm in
  let keep := (N - Z.to_nat (Z.of_nat N mod B))%nat in
  trim_rows (Z.of_nat N mod B) Y_norm X_norm
  = Ok (take keep Y_norm, take keep X_norm) /\
  Z.of_nat keep = Z.of_nat N - Z.of_nat N mod B /\
  (Z.of_nat keep mod B = 0).
Proof.
  intros HB Hlen N keep.
  assert (0 <= Z.of_nat N mod B < B) as Hmod by (apply Z.mod_pos_bound; lia).
  assert (Z.of_nat N mod B <= Z.of_nat N) by (apply Z.mod_le; lia).
  assert (Hkeep : Z.of_nat keep = Z.of_nat N - Z.of_nat N mod B) by lia.
  split; [|split; [done|]].
  - unfold trim_rows. destruct (Z.ltb_spec 0 (Z.of_nat N mod B)) as [Hpos|Hzero].
    + rewrite !py_slice_drop_tail by done. cbn. by rewrite Hlen.
    + subst keep. replace (Z.of_nat N mod B) with 0 by lia.
      rewrite Nat.sub_0_r. subst N. rewrite <- Hlen at 1.
      by rewrite !firstn_all.
  - rewrite Hkeep. rewrite Zminus_mod, Z.mod_mod, Z.sub_diag by lia.
    apply Z.mod_0_l. lia.
Qed.

Lemma omap_head_singletons {A} (row : list A) :
  omap (fun cell : list A => cell !! 0%nat) (map (fun v => [v]) row) = row.
Proof. induction row as [|v row IH]; [done|]. cbn. by rewrite IH. Qed.

(** The mean over the channel axis of an array of shape (rows, J, 1), with
    the trailing axis put back: one mean per row. *)
Lemma mean_target_rows (rows : list (list scalar)) :
  expand_dims (mean_axis1 1 (expand_dims rows))
  = map (fun row => [[np_mean row]]) rows.
Proof.
  unfold expand_dims, mean_axis1. rewrite !map_map. apply map_ext.
  intros row. cbn. by rewrite omap_head_singletons.
Qed.

Lemma rmapM_length {A B} (f : A -> result B) (l : list A) (l' : list B) :
  rmapM f l = Ok l' -> length l' = length l.
Proof.
  revert l'. induction l as [|x l IH]; intros l'; cbn.
  - by intros [= <-].
  - destruct (f x); [cbn|discriminate].
    destruct (rmapM f l) as [ys|]; [cbn|discriminate].
    intros [= <-]. cbn. by rewrite (IH ys).
Qed.


End TrainFacts.

(** ** Claims about [train_lorenz_gan] *)

Section TrainClaims.
Context {scalar Env model : Type}.
Context {numeric : Numeric scalar} {lorenz_gan : Collaborators scalar Env model}.

(** Running the script one operation at a time. *)
Ltac run_step :=
  first
    [ rewrite bind_assoc
    | rewrite bind_ret
    | rewrite bind_emit
    | rewrite bind_to_csv
    | rewrite bind_call_normalize_data
    | rewrite bind_call_builder
    | rewrite bind_call_initialize_gan
    | rewrite call_train_gan_run
    | rewrite bind_lift ].

Ltac case_step :=
  match goal with
  | |- context [match ?r with Ok _ => _ | Raise _ => _ end] =>
      destruct r as [?|?] eqn:?
  | |- context [if ?c then _ else _] => destruct c eqn:?
  | |- context [let (_, _) := ?p in _] => destruct p as [? ?]
  | |- context [match ?p with (_, _) => _ end] => destruct p as [? ?]
  end.

Ltac run_simpl :=
  cbn [rbind after events outcome final quiet
       stages train_calls normalize_calls csv_writes omap stage_of
       list_omap option_bind mbind].

(** [run_all stop] follows every path through the function; [stop] closes
    the paths on which the call in question is never made. *)
Ltac run_all stop :=
  repeat (first [run_step | case_step]; run_simpl; try (solve [stop])).

Lemma np_arange_inv (v : yaml) (l : list Z) :
  np_arange v = Ok l ->
  exists n, v = YInt n /\ l = map Z.of_nat (seq 0 (Z.to_nat n)).
Proof. destruct v; try discriminate. cbn. intros [= <-]. eauto. Qed.

Lemma py_range_inv (v : yaml) (l : list Z) :
  py_range v = Ok l ->
  exists n, v = YInt n /\ l = map Z.of_nat (seq 0 (Z.to_nat n)).
Proof. destruct v; try discriminate. cbn. intros [= <-]. eauto. Qed.

Lemma str_lower_inv (v : yaml) (s : string) :
  str_lower v = Ok s -> exists t, v = YStr t /\ s = lower t.
Proof. destruct v; try discriminate. cbn. intros [= <-]. eauto. Qed.

Lemma trim_rows_facts {A} (Y_norm X_norm Y_kept X_kept : list A) (B : Z) :
  trim_rows (Z.of_nat (length X_norm) mod B) Y_norm X_norm
  = Ok (Y_kept, X_kept) ->
  1 <= B -> length Y_norm = length X_norm ->
  let N := length X_norm in
  let keep := (N - Z.to_nat (Z.of_nat N mod B))%nat in
  X_kept = take keep X_norm /\
  Y_kept = take keep Y_norm /\
  length X_kept = keep /\
  length Y_kept = keep /\
  Z.of_nat keep = Z.of_nat N - Z.of_nat N mod B /\
  Z.of_nat keep mod B = 0 /\
  (Z.of_nat N mod B = 0 -> X_kept = X_norm /\ Y_kept = Y_norm).
Proof.
  intros Ht HB Hlen. cbv zeta.
  destruct (trim_rows_take Y_norm X_norm B HB Hlen) as (Htake & Hkeep & Hdiv).
  rewrite Htake in Ht. injection Ht as <- <-.
  assert (0 <= Z.of_nat (length X_norm) mod B < B)
    by (apply Z.mod_pos_bound; lia).
  assert (Z.of_nat (length X_norm) mod B <= Z.of_nat (length X_norm))
    by (apply Z.mod_le; lia).
  rewrite !length_take, Hlen.
  split; [done|]. split; [done|]. split; [lia|]. split; [lia|].
  split; [lia|]. split; [done|].
  intros Hz. rewrite Hz, Nat.sub_0_r.
  split; [apply firstn_all|rewrite <- Hlen; apply firstn_all].
Qed.

(** [train_lorenz_gan] takes no part in the four stages before training. *)
Lemma train_lorenz_gan_stages (config : yaml) (df : DataFrame scalar)
    (w : World scalar Env) :
  stages (events (train_lorenz_gan config df w)) = [].
Proof. unfold train_lorenz_gan. run_all ltac:(idtac; reflexivity). Qed.

(** C4.  Whenever the trainer is called, the arrays it is handed are the
    two arrays [normalize_data] returned, trimmed at the tail: for arrays
    of [N] rows and a batch size [B >= 1], both are cut to their first
    [N - N mod B] rows, unchanged and in order, a multiple of [B]; when
    [N mod B = 0] nothing is dropped. *)
Theorem rows_are_trimmed_to_whole_batches (config : yaml)
    (df : DataFrame scalar) (w : World scalar Env)
    (call : train_gan_call scalar) :
  call ∈ train_calls (events (train_lorenz_gan config df w)) ->
  exists X_in Y_in X_norm X_scaling Y_norm Y_scaling gan B,
    normalize_calls (events (train_lorenz_gan config df w)) = [X_in; Y_in] /\
    normalize_data X_in = Ok (X_norm, X_scaling) /\
    normalize_data Y_in = Ok (Y_norm, Y_scaling) /\
    getitem config "gan" = Ok gan /\
    getitem gan "batch_size" = Ok (YInt B) /\
    B <> 0 /\
    (1 <= B -> length Y_norm = length X_norm ->
     let N := length X_norm in
     let keep := (N - Z.to_nat (Z.of_nat N mod B))%nat in
     tg_X_norm call = take keep X_norm /\
     tg_Y_norm call = take keep Y_norm /\
     length (tg_X_norm call) = keep /\
     length (tg_Y_norm call) = keep /\
     Z.of_nat keep = Z.of_nat N - Z.of_nat N mod B /\
     Z.of_nat keep mod B = 0 /\
     (Z.of_nat N mod B = 0 ->
      tg_X_norm call = X_norm /\ tg_Y_norm call = Y_norm)).
Proof.
  unfold train_lorenz_gan.
  run_all ltac:(idtac; intros Hin; by apply elem_of_nil in Hin).
  all: intros Hin%list_elem_of_singleton; subst call; simplify_eq.
  all: match goal with
       | Hm : py_mod _ _ = Ok _ |- _ =>
           apply py_mod_inv in Hm as (B & -> & HB & ->)
       end.
  all: do 7 eexists; exists B;
       (split; [reflexivity|]); (split; [eassumption|]);
       (split; [eassumption|]); (split; [reflexivity|]);
       (split; [eassumption|]); (split; [exact HB|]);
       cbn [tg_X_norm tg_Y_norm]; by apply trim_rows_facts.
Qed.

Lemma x_cols_of_lags (n : nat) :
  x_cols_of (map Z.of_nat (seq 0 n)) = map lag_name (seq 0 n).
Proof.
  rewrite x_cols_of_map, map_map. apply map_ext. intros [|t]; [done|].
  unfold lag_name. by destruct (Z.eqb_spec (Z.of_nat (S t)) 0); [lia|].
Qed.

Lemma y_cols_of_targets (j : nat) :
  y_cols_of (map Z.of_nat (seq 0 j)) = map target_name (seq 0 j).
Proof. unfold y_cols_of. by rewrite map_map. Qed.


End TrainClaims.

(** ** Claims about [main] *)

Section MainClaims.
Context {scalar Env model : Type}.
Context {numeric : Numeric scalar} {lorenz_gan : Collaborators scalar Env model}.

Lemma bind_load_yaml {B} (path : string) (k : yaml -> Py B)
    (w : World scalar Env) :
  bind (load_yaml path) k w =
  after (EvOpen path) match yaml_at w path with
                      | Ok doc => k doc w
                      | Raise e => quiet (Raise e) w
                      end.
Proof.
  unfold load_yaml. rewrite bind_assoc, bind_emit. f_equal.
  apply (bind_lift (yaml_at w path)).
Qed.

Lemma bind_exists {B} (path : yaml) (k : bool -> Py B) (w : World scalar Env) :
  bind (exists_ path) k w =
  match path with
  | YStr p => k (bool_decide (is_Some (disk w !! p))) w
  | YInt _ => quiet (Raise OutOfModel) w
  | _ => quiet (Raise TypeError) w
  end.
Proof.
  destruct path; cbn [exists_]; try apply (bind_lift (Raise _)).
  apply (bind_lift (Ok _)).
Qed.

Lemma bind_mkdir {B} (path : yaml) (k : unit -> Py B) (w : World scalar Env) :
  bind (mkdir path) k w =
  match path with
  | YStr p =>
      after (EvMkdir p)
            (if writable w p then k tt (wrote w p FDir)
             else quiet (Raise (OSError p)) w)
  | _ => quiet (Raise TypeError) w
  end.
Proof.
  destruct path; cbn [mkdir]; try apply (bind_lift (Raise _)).
  by rewrite bind_assoc, bind_emit, bind_write_file.
Qed.

Lemma bind_read_csv {B} (path : yaml) (k : DataFrame scalar -> Py B)
    (w : World scalar Env) :
  bind (read_csv path) k w =
  match path with
  | YStr p =>
      after (EvReadCsv p) match csv_at w p with
                          | Ok df => k df w
                          | Raise e => quiet (Raise e) w
                          end
  | _ => quiet (Raise ValueError) w
  end.
Proof.
  destruct path; cbn [read_csv]; try apply (bind_lift (Raise _)).
  rewrite bind_assoc, bind_emit. f_equal. apply (bind_lift (csv_at w s)).
Qed.

Lemma bind_generate_lorenz_data {B} (config : yaml)
    (k : Trajectory scalar -> Py B) (w : World scalar Env) :
  bind (generate_lorenz_data config) k w =
  match integrator_arguments config with
  | Raise e => quiet (Raise e) w
  | Ok (a, skip) =>
      after (call_event a)
            match rbind (integrate (hidden w) a) (trimmed config skip) with
            | Ok tr => k tr w
            | Raise e => quiet (Raise e) w
            end
  end.
Proof.
  unfold bind at 1. rewrite generate_lorenz_data_unfold.
  destruct (integrator_arguments config) as [[a skip]|]; [cbn|done].
  by destruct (rbind _ _).
Qed.

Lemma bind_call_process_lorenz_data {B} (t : Trajectory scalar)
    (n J x_skip t_skip : yaml) (k : DataFrame scalar -> Py B)
    (w : World scalar Env) :
  bind (call_process_lorenz_data t n J x_skip t_skip) k w =
  after (EvProcess t n J x_skip t_skip)
        match process_lorenz_data t n J x_skip t_skip with
        | Ok df => k df w
        | Raise e => quiet (Raise e) w
        end.
Proof.
  unfold call_process_lorenz_data. by rewrite bind_assoc, bind_emit, bind_lift.
Qed.

Lemma bind_call_save_lorenz_output {B} (t : Trajectory scalar)
    (config path : yaml) (k : unit -> Py B) (w : World scalar Env) :
  bind (call_save_lorenz_output t config path) k w =
  after (EvSaveLorenz t config path)
        match save_lorenz_output t config path with
        | Ok _ =>
            match path with
            | YStr p =>
                if writable w p then k tt (wrote w p (FNetCDF t config))
                else quiet (Raise (OSError p)) w
            | _ => k tt w
            end
        | Raise e => quiet (Raise e) w
        end.
Proof.
  unfold call_save_lorenz_output.
  rewrite bind_assoc, bind_emit, bind_assoc, bind_lift.
  destruct (save_lorenz_output t config path) as [[]|]; [|done].
  destruct path; try by rewrite bind_ret.
  by rewrite bind_write_file.
Qed.

Ltac main_step :=
  first
    [ rewrite bind_assoc
    | rewrite bind_ret
    | rewrite bind_emit
    | rewrite bind_to_csv
    | rewrite bind_load_yaml
    | rewrite bind_exists
    | rewrite bind_mkdir
    | rewrite bind_read_csv
    | rewrite bind_generate_lorenz_data
    | rewrite bind_call_process_lorenz_data
    | rewrite bind_call_save_lorenz_output
    | rewrite bind_lift ].

Ltac main_case :=
  match goal with
  | |- context [match ?r with Ok _ => _ | Raise _ => _ end] =>
      destruct r as [?|?] eqn:?
  | |- context [if ?c then _ else _] => destruct c eqn:?
  | |- context [let (_, _) := ?p in _] => destruct p as [? ?]
  | |- context [match ?p with (_, _) => _ end] => destruct p as [? ?]
  | |- context [match ?v with
                | YInt _ => _ | YFloat _ => _ | YStr _ => _
                | YSeq _ => _ | YMap _ => _
                end] => destruct v
  end.

Ltac main_simpl :=
  cbn [rbind after events outcome final quiet call_event
       stages train_calls normalize_calls csv_writes omap stage_of
       list_omap option_bind mbind].

Lemma train_lorenz_gan_stages_omap (config : yaml) (df : DataFrame scalar)
    (w : World scalar Env) :
  omap stage_of (events (train_lorenz_gan config df w)) = [].
Proof. apply train_lorenz_gan_stages. Qed.

(** C2 (as amended).  Without the reload flag, [main] goes through the
    stages in the order: run the integrator, build the flat feature table,
    persist the raw trajectory, persist the flat feature file.  A run that
    stops early has made an initial part of these calls, in this order; a
    run that ends well has made all four. *)
Theorem stages_run_in_order (args : Args) (w : World scalar Env) :
  reload args = false ->
  stages (events (main args w)) `prefix_of` pipeline_order /\
  (outcome (main args w) = Ok tt ->
   stages (events (main args w))
   = [Integrate; BuildFeatures; PersistRaw; PersistFlat]).
Proof.
  intros Hreload. unfold main, pipeline_order. rewrite Hreload.
  repeat (first [main_step | main_case]; main_simpl;
          rewrite ?train_lorenz_gan_stages_omap;
          try (solve [split;
                      [repeat first [apply prefix_nil | apply prefix_cons]
                      |first [intros Hc; discriminate Hc | reflexivity]]])).
Qed.







End MainClaims.


(** * Further properties *)

(** ** More on slicing *)

(** A negative start counts from the end, and stops at the beginning. *)
Lemma py_slice_negative_start {A} (a : list A) (b s : Z) :
  b < 0 -> 1 <= s ->
  py_slice a (Some b) None (Some s)
  = py_slice a (Some (Z.max 0 (Z.of_nat (length a) + b))) None (Some s).
Proof.
  intros Hb Hs. unfold py_slice, slice_positions. cbv zeta. cbv [default from_option id].
  assert (adjust_bound (Z.of_nat (length a)) b s
          = adjust_bound (Z.of_nat (length a))
              (Z.max 0 (Z.of_nat (length a) + b)) s) as ->; [|done].
  unfold adjust_bound.
  repeat match goal with
         | |- context [?x <? ?y] => destruct (Z.ltb_spec x y)
         | |- context [?x <=? ?y] => destruct (Z.leb_spec x y)
         end; lia.
Qed.

(** Looking up increasing positions picks out a subsequence. *)
Lemma increasing_lookups_sublist {A} (a : list A) (g : nat -> nat)
    (k n lo : nat) :
  (forall i j : nat, (i < j)%nat -> (g i < g j)%nat) ->
  (forall i : nat, (k <= i < k + n)%nat -> (lo <= g i < length a)%nat) ->
  omap (fun p : nat => a !! p) (map g (seq k n)) `sublist_of` drop lo a.
Proof.
  intros Hmono. revert k lo.
  induction n as [|n IH]; intros k lo Hin; [apply sublist_nil_l|].
  destruct (Hin k) as [Hlo Hlt]; [lia|].
  destruct (lookup_lt_is_Some_2 a (g k) Hlt) as [x Hx].
  cbn. rewrite Hx. cbn.
  etrans; [|apply (sublist_drop _ (g k - lo))].
  rewrite drop_drop. replace (lo + (g k - lo))%nat with (g k) by lia.
  rewrite (drop_S _ _ _ Hx). apply sublist_skip. apply IH.
  intros i Hi. specialize (Hmono k i). specialize (Hin i). lia.
Qed.

(** With a positive step, a slice is a subsequence of what it is cut
    from. *)
Lemma py_slice_forward_sublist {A} (a xs : list A) (b s : Z) :
  1 <= s -> py_slice a (Some b) None (Some s) = Ok xs -> xs `sublist_of` a.
Proof.
  intros Hs Hxs. unfold py_slice in Hxs.
  destruct (slice_positions _ _ _ _) as [ps|] eqn:Hps; [|discriminate].
  cbn in Hxs. injection Hxs as <-.
  pose proof (slice_positions_in_range _ _ _ _ _ Hps) as Hin.
  unfold slice_positions in Hps. cbv zeta in Hps. cbv [default from_option id] in Hps.
  destruct (Z.eqb_spec s 0) as [|_]; [lia|].
  destruct (Z.ltb_spec s 0) as [|_]; [lia|].
  injection Hps as <-.
  pose proof (adjust_bound_forward (Z.of_nat (length a)) b s) as Hstart.
  match goal with
  | |- ?xs `sublist_of` a => enough (xs `sublist_of` drop 0 a) by done
  end.
  apply (increasing_lookups_sublist a
           (fun i : nat =>
              Z.to_nat (adjust_bound (Z.of_nat (length a)) b s + Z.of_nat i * s))).
  - intros i j Hij. nia.
  - intros i Hi. split; [lia|].
    rewrite Forall_forall in Hin. apply Hin.
    apply list_elem_of_fmap. exists i. split; [done|]. apply elem_of_seq. lia.
Qed.

Lemma div_minus_one (s : Z) : 1 <= s -> -1 / s = -1.
Proof.
  intros Hs. symmetry. apply (Z.div_unique (-1) s (-1) (s - 1)); lia.
Qed.

(** [a[b::-s]] for a start that is not negative: the elements at [b'],
    [b'-s], [b'-2s], ... down to the beginning, where [b'] is [b] or the
    last position if [b] lies past it. *)
Lemma py_slice_backward {A} (a : list A) (b s : Z) :
  0 <= b -> 1 <= s ->
  let top := Z.min b (Z.of_nat (length a) - 1) in
  exists xs,
    py_slice a (Some b) None (Some (- s)) = Ok xs /\
    Z.of_nat (length xs) = top / s + 1 /\
    forall f : nat, (f < length xs)%nat ->
                    xs !! f = a !! Z.to_nat (top - Z.of_nat f * s).
Proof.
  intros Hb Hs top.
  destruct (slice_positions (length a) (Some b) None (Some (- s))) as [ps|] eqn:Hps.
  2:{ unfold slice_positions in Hps. cbn in Hps.
      destruct (Z.eqb_spec (- s) 0); [lia|discriminate]. }
  pose proof (slice_positions_in_range _ _ _ _ _ Hps) as Hin.
  destruct (omap_lookup_in_range a ps Hin) as [Hlen Hget].
  exists (omap (fun p : nat => a !! p) ps).
  split; [unfold py_slice; by rewrite Hps|].
  unfold slice_positions in Hps. cbv zeta in Hps. cbv [default from_option id] in Hps.
  destruct (Z.eqb_spec (- s) 0) as [|_]; [lia|].
  destruct (Z.ltb_spec (- s) 0) as [_|]; [|lia].
  injection Hps as <-.
  set (n := Z.of_nat (length a)) in *.
  assert (Hstart : adjust_bound n b (- s) = top).
  { unfold adjust_bound, top. destruct (Z.ltb_spec b 0); [lia|].
    destruct (Z.leb_spec n b); destruct (Z.ltb_spec (- s) 0); lia. }
  assert (Hcount : slice_length top (-1) (- s) = top / s + 1).
  { unfold slice_length. destruct (Z.ltb_spec (- s) 0); [|lia].
    destruct (Z.ltb_spec (-1) top).
    - replace (top - -1 - 1) with top by lia. by rewrite Z.opp_involutive.
    - assert (Htop : top = -1) by (unfold top in *; lia).
      rewrite Htop, (div_minus_one s Hs). lia. }
  rewrite Hstart, Hcount in *.
  rewrite length_map, length_seq in Hlen.
  assert (0 <= top / s + 1).
  { destruct (Z.ltb_spec (-1) top).
    - assert (0 <= top / s) by (apply Z.div_pos; lia). lia.
    - assert (Htop : top = -1) by (unfold top in *; lia).
      rewrite Htop, (div_minus_one s Hs). lia. }
  split.
  - rewrite Hlen. lia.
  - intros f Hf. rewrite Hlen in Hf. apply Hget.
    rewrite list_lookup_fmap, lookup_seq_lt by done. cbn. f_equal. f_equal. lia.
Qed.

(** ** [generate_lorenz_data] at the edges *)

Section GenerateEdges.
Context {scalar Env model : Type}.
Context {numeric : Numeric scalar} {lorenz_gan : Collaborators scalar Env model}.

Lemma slice_from_int {A} (a : list A) (b s : Z) :
  s <> 0 -> slice_from a (YInt b) (YInt s) = py_slice a (Some b) None (Some s).
Proof. intros Hs. unfold slice_from. cbn. by destruct (Z.eqb_spec s 0). Qed.

(** When slicing by [b::s] cuts every sequence one way, so does the trim. *)
Lemma trimmed_cut (config : yaml) (raw : Trajectory scalar) (b s : Z)
    (count : Z -> Z) (pos : Z -> nat -> Z) :
  getitem config "burn_in" = Ok (YInt b) -> s <> 0 ->
  (forall (A : Type) (a : list A),
      exists xs, py_slice a (Some b) None (Some s) = Ok xs /\
                 frames_at xs a (count (Z.of_nat (length a)))
                           (pos (Z.of_nat (length a)))) ->
  exists tr, trimmed config (YInt s) raw = Ok tr /\ cut_as tr raw count pos.
Proof.
  intros Hburn Hs Hcut. unfold trimmed. rewrite Hburn. cbn [rbind].
  rewrite !slice_from_int by done.
  destruct (Hcut _ (X_out raw)) as (X' & -> & HX).
  destruct (Hcut _ (Y_out raw)) as (Y' & -> & HY).
  destruct (Hcut _ (times raw)) as (t' & -> & Ht).
  destruct (Hcut _ (steps raw)) as (s' & -> & Hs').
  cbn [rbind]. eexists. split; [reflexivity|].
  unfold cut_as. cbn [X_out Y_out times steps]. auto.
Qed.

Lemma py_slice_from_end {A} (a : list A) (b s : Z) :
  b < 0 -> 1 <= s ->
  let L := Z.of_nat (length a) in
  exists xs,
    py_slice a (Some b) None (Some s) = Ok xs /\
    frames_at xs a (kept L (from_end b L) s)
              (fun f => from_end b L + Z.of_nat f * s).
Proof.
  intros Hb Hs L. rewrite py_slice_negative_start by done.
  destruct (py_slice_from_start a (Z.max 0 (Z.of_nat (length a) + b)) s)
    as (xs & Hxs & Hn & Hget); [lia|done|].
  exists xs. split; [done|]. split; [done|].
  intros f Hf. rewrite (Hget f Hf). f_equal. unfold from_end, L. nia.
Qed.

Lemma py_slice_reversed {A} (a : list A) (b s : Z) :
  0 <= b -> 1 <= s ->
  let L := Z.of_nat (length a) in
  exists xs,
    py_slice a (Some b) None (Some (- s)) = Ok xs /\
    frames_at xs a (last_from b L / s + 1)
              (fun f => last_from b L - Z.of_nat f * s).
Proof.
  intros Hb Hs L.
  destruct (py_slice_backward a b s Hb Hs) as (xs & Hxs & Hn & Hget).
  exists xs. split; [done|]. by split.
Qed.

Lemma generate_lorenz_data_run (config : yaml) (w : World scalar Env)
    (a : integrator_call) (skip : yaml) (raw : Trajectory scalar) :
  integrator_arguments config = Ok (a, skip) ->
  integrate (hidden w) a = Ok raw ->
  outcome (generate_lorenz_data config w) = trimmed config skip raw /\
  events (generate_lorenz_data config w) = [call_event a].
Proof.
  intros Hargs Hraw. rewrite generate_lorenz_data_unfold, Hargs. cbn.
  by rewrite Hraw.
Qed.

(** With a step of at least 1, whatever the burn-in (in range, past the
    end, or negative), the frames handed on are frames the integrator
    returned, none of them repeated and in the order they were returned:
    each of the four sequences is a subsequence of the raw one. *)
Theorem kept_frames_are_a_subsequence (config : yaml) (w : World scalar Env)
    (tr : Trajectory scalar) (s : Z) :
  outcome (generate_lorenz_data config w) = Ok tr ->
  getitem config "skip" = Ok (YInt s) -> 1 <= s ->
  exists X Y h F b c time_step num_steps raw,
    events (generate_lorenz_data config w)
    = [EvRunLorenz X Y h F b c time_step num_steps] /\
    run_lorenz96_truth (hidden w) X Y h F b c time_step num_steps = Ok raw /\
    X_out tr `sublist_of` X_out raw /\ Y_out tr `sublist_of` Y_out raw /\
    times tr `sublist_of` times raw /\ steps tr `sublist_of` steps raw.
Proof.
  intros Hok Hskip Hs.
  destruct (generate_lorenz_data_inv _ _ _ Hok)
    as (a & skip & raw & Hargs & Hraw & Htr & Hev).
  exists (ic_X a), (ic_Y a), (ic_h a), (ic_F a), (ic_b a), (ic_c a),
         (ic_time_step a), (ic_num_steps a), raw.
  split; [exact Hev|]. split; [exact Hraw|].
  destruct (trimmed_inv _ _ _ _ Htr) as (b & s' & _ & -> & _ & HX & HY & Ht & Hst).
  destruct (integrator_arguments_inv _ _ _ Hargs)
    as (_ & _ & _ & _ & _ & _ & _ & _ & Hskip' & _).
  rewrite Hskip in Hskip'. injection Hskip' as <-.
  repeat split; by eapply py_slice_forward_sublist.
Qed.

(** A negative burn-in is not refused: it counts from the end.  With
    [burn_in = b < 0] and [skip >= 1], the function returns, from a raw
    sequence of [L] frames, the frames [L + b], [L + b + skip], ... (from
    frame 0 when [L + b] is negative): the last [-b] raw frames,
    subsampled. *)
Theorem negative_burn_in_counts_from_the_end (config : yaml)
    (w : World scalar Env) (a : integrator_call) (raw : Trajectory scalar)
    (b s : Z) :
  integrator_arguments config = Ok (a, YInt s) ->
  integrate (hidden w) a = Ok raw ->
  getitem config "burn_in" = Ok (YInt b) -> b < 0 -> 1 <= s ->
  exists tr,
    outcome (generate_lorenz_data config w) = Ok tr /\
    cut_as tr raw (fun L => kept L (from_end b L) s)
           (fun L f => from_end b L + Z.of_nat f * s).
Proof.
  intros Hargs Hraw Hburn Hb Hs.
  destruct (generate_lorenz_data_run _ _ _ _ _ Hargs Hraw) as [-> _].
  apply (trimmed_cut config raw b s); [done|lia|].
  intros A l. by apply py_slice_from_end.
Qed.

(** A skip of zero is found only once the integration is over: the
    integrator is called as for any other skip, and the run then ends in
    [ValueError]; no such run returns a trajectory. *)
Theorem zero_skip_fails_after_the_simulation (config : yaml)
    (w : World scalar Env) (a : integrator_call) (burn_in : yaml) :
  integrator_arguments config = Ok (a, YInt 0) ->
  getitem config "burn_in" = Ok burn_in ->
  events (generate_lorenz_data config w) = [call_event a] /\
  (forall raw, integrate (hidden w) a = Ok raw ->
               outcome (generate_lorenz_data config w) = Raise ValueError) /\
  (forall tr, outcome (generate_lorenz_data config w) <> Ok tr).
Proof.
  intros Hargs Hburn. rewrite generate_lorenz_data_unfold, Hargs. cbn.
  split; [done|].
  destruct (integrate (hidden w) a) as [raw|e]; cbn.
  - unfold trimmed. rewrite Hburn. cbn. split; [done|]. by intros tr.
  - split; [by intros raw|]. by intros tr.
Qed.

(** A negative skip is not refused either: it walks backwards.  With
    [skip = -s], [s >= 1] and [burn_in = b >= 0], the function returns
    the raw frames [b], [b - s], [b - 2 s], ... down to the start (from the
    last frame when [b] lies past the end): frames of the burn-in period,
    latest first. *)
Theorem negative_skip_walks_backwards (config : yaml)
    (w : World scalar Env) (a : integrator_call) (raw : Trajectory scalar)
    (b s : Z) :
  integrator_arguments config = Ok (a, YInt (- s)) ->
  integrate (hidden w) a = Ok raw ->
  getitem config "burn_in" = Ok (YInt b) -> 0 <= b -> 1 <= s ->
  exists tr,
    outcome (generate_lorenz_data config w) = Ok tr /\
    cut_as tr raw (fun L => last_from b L / s + 1)
           (fun L f => last_from b L - Z.of_nat f * s).
Proof.
  intros Hargs Hraw Hburn Hb Hs.
  destruct (generate_lorenz_data_run _ _ _ _ _ Hargs Hraw) as [-> _].
  apply (trimmed_cut config raw b (- s)); [done|lia|].
  intros A l. by apply py_slice_reversed.
Qed.

End GenerateEdges.

(** ** The calls of [train_lorenz_gan] *)

Section TrainCalls.
Context {scalar Env model : Type}.
Context {numeric : Numeric scalar} {lorenz_gan : Collaborators scalar Env model}.

Ltac run_step :=
  first
    [ rewrite bind_assoc
    | rewrite bind_ret
    | rewrite bind_emit
    | rewrite bind_to_csv
    | rewrite bind_call_normalize_data
    | rewrite bind_call_builder
    | rewrite bind_call_initialize_gan
    | rewrite call_train_gan_run
    | rewrite bind_lift ].

Ltac case_step :=
  match goal with
  | |- context [match ?r with Ok _ => _ | Raise _ => _ end] =>
      destruct r as [?|?] eqn:?
  | |- context [if ?c then _ else _] => destruct c eqn:?
  | |- context [let (_, _) := ?p in _] => destruct p as [? ?]
  | |- context [match ?p with (_, _) => _ end] => destruct p as [? ?]
  end.

Ltac run_simpl :=
  cbn [rbind after events outcome final quiet
       calls call_of map model_builds gan_inits mkdirs
       stages train_calls normalize_calls csv_writes omap stage_of
       list_omap option_bind mbind].

Ltac run_all stop :=
  repeat (first [run_step | case_step]; run_simpl; try (solve [stop])).


(** The calls [train_lorenz_gan] makes are, in this order: [normalize_data]
    twice, two scaling tables written, two models built, [initialize_gan],
    [train_gan].  A run that stops early has made an initial part of them;
    a run that ends well has made all eight.  The function makes no other
    call: it opens, reads and creates nothing else. *)
Theorem training_calls_in_order (config : yaml) (df : DataFrame scalar)
    (w : World scalar Env) :
  calls (events (train_lorenz_gan config df w)) `prefix_of` training_order /\
  (outcome (train_lorenz_gan config df w) = Ok tt ->
   calls (events (train_lorenz_gan config df w)) = training_order).
Proof.
  unfold train_lorenz_gan, training_order.
  run_all ltac:(idtac;
                split;
                [repeat first [apply prefix_nil | apply prefix_cons]
                |first [intros Hc; discriminate Hc | reflexivity]]).
Qed.


(** Which models are built is decided by [structure] alone, compared as
    written: when it is the string ["dense"], the dense generator and the
    dense discriminator; for every other value (another spelling, another
    case, a value that is no string), the convolutional ones.  Each builder
    is handed its section of the configuration, [config["gan"]["generator"]]
    or [config["gan"]["discriminator"]]. *)
Theorem structure_selects_the_builders (config : yaml) (df : DataFrame scalar)
    (w : World scalar Env) (name : string) (kwargs : yaml) :
  (name, kwargs) ∈ model_builds (events (train_lorenz_gan config df w)) ->
  exists gan structure,
    getitem config "gan" = Ok gan /\
    getitem gan "structure" = Ok structure /\
    ((name = (if eq_str structure "dense"
              then "generator_dense" else "generator_conv") /\
      getitem gan "generator" = Ok kwargs) \/
     (name = (if eq_str structure "dense"
              then "discriminator_dense" else "discriminator_conv") /\
      getitem gan "discriminator" = Ok kwargs)).
Proof.
  unfold train_lorenz_gan.
  run_all ltac:(idtac; intros Hin; by apply elem_of_nil in Hin).
  all: intros Hin;
       repeat (apply elem_of_cons in Hin as [Hin|Hin]; [injection Hin as -> ->|]);
       try (by apply elem_of_nil in Hin).
  all: simplify_eq.
  all: do 2 eexists; (split; [reflexivity|]); (split; [eassumption|]).
  all: match goal with
       | H : eq_str _ _ = _ |- _ => rewrite H
       end.
  all: first [left; split; [reflexivity|eassumption]
             |right; split; [reflexivity|eassumption]].
Qed.

(** The combined model is always compiled with [Adam(lr=0.0001,
    beta_1=0.5)]: no field of the configuration changes the optimizer.  The
    loss and the metrics are the configured ones. *)
Theorem optimizer_is_fixed (config : yaml) (df : DataFrame scalar)
    (w : World scalar Env) (loss metrics : yaml) (opt : optimizer) :
  (loss, opt, metrics) ∈ gan_inits (events (train_lorenz_gan config df w)) ->
  opt = Adam (1 # 10000) (1 # 2) /\
  exists gan,
    getitem config "gan" = Ok gan /\
    getitem gan "loss" = Ok loss /\
    getitem gan "metrics" = Ok metrics.
Proof.
  unfold train_lorenz_gan.
  run_all ltac:(idtac; intros Hin; by apply elem_of_nil in Hin).
  all: intros Hin%list_elem_of_singleton; injection Hin as -> -> ->; simplify_eq.
  all: split; [reflexivity|]; eexists; split; [reflexivity|]; by split.
Qed.

(** A run that reaches the trainer, laid out: the eight calls it made and
    where each argument came from. *)
Lemma trainer_call_inv (config : yaml) (df : DataFrame scalar)
    (w : World scalar Env) (call : train_gan_call scalar) :
  call ∈ train_calls (events (train_lorenz_gan config df w)) ->
  exists gan generator X_in Y_in X_norm Y_norm X_file Y_file B
         gen_name gen_kwargs disc_name disc_kwargs loss,
    getitem config "gan" = Ok gan /\
    getitem gan "generator" = Ok generator /\
    normalize_data X_in = Ok (X_norm, tg_X_scaling_values call) /\
    normalize_data Y_in = Ok (Y_norm, tg_Y_scaling_values call) /\
    scaling_file config "gan_X_scaling_values_" = Ok X_file /\
    scaling_file config "gan_Y_scaling_values_" = Ok Y_file /\
    getitem gan "batch_size" = Ok (YInt B) /\ B <> 0 /\
    trim_rows (Z.of_nat (length X_norm) mod B) Y_norm X_norm
    = Ok (tg_Y_norm call, tg_X_norm call) /\
    tg_batch_size call = YInt B /\
    getitem generator "num_random_inputs" = Ok (tg_num_random_inputs call) /\
    getitem gan "gan_path" = Ok (tg_gan_path call) /\
    getitem gan "gan_index" = Ok (tg_gan_index call) /\
    getitem gan "num_epochs" = Ok (tg_num_epochs call) /\
    getitem gan "metrics" = Ok (tg_metrics call) /\
    getitem gan "loss" = Ok loss /\
    events (train_lorenz_gan config df w)
    = [EvNormalize X_in; EvNormalize Y_in;
       EvToCsv X_file (Some "Channel") (tg_X_scaling_values call);
       EvToCsv Y_file (Some "Channel") (tg_Y_scaling_values call);
       EvBuildModel gen_name gen_kwargs; EvBuildModel disc_name disc_kwargs;
       EvInitializeGan loss (Adam (1 # 10000) (1 # 2)) (tg_metrics call);
       EvTrainGan call].
Proof.
  unfold train_lorenz_gan.
  run_all ltac:(idtac; intros Hin; by apply elem_of_nil in Hin).
  all: intros Hin%list_elem_of_singleton; subst call; simplify_eq.
  all: match goal with
       | Hm : py_mod _ _ = Ok _ |- _ =>
           apply py_mod_inv in Hm as (B & -> & HB & ->)
       end.
  all: cbn [tg_Y_norm tg_X_norm tg_batch_size tg_num_random_inputs tg_gan_path
            tg_gan_index tg_num_epochs tg_metrics tg_Y_scaling_values
            tg_X_scaling_values].
  all: do 8 eexists; exists B; do 5 eexists.
  all: do 7 (split; [first [reflexivity|eassumption]|]).
  all: split; [exact HB|].
  all: do 8 (split; [first [reflexivity|eassumption]|]).
  all: reflexivity.
Qed.

Lemma join_same_directory (gan_path : yaml) (x y px py : string) :
  String.prefix "/" x = false -> String.prefix "/" y = false ->
  join gan_path x = Ok px -> join gan_path y = Ok py -> px = py -> x = y.
Proof.
  intros Hx Hy. destruct gan_path as [| |a| |]; try discriminate.
  cbn. rewrite Hx, Hy.
  destruct (String.eqb a "" || ends_with_slash a); intros [= <-] [= <-] Heq.
  - by apply (inj (String.append a)) in Heq.
  - apply (inj (String.append a)) in Heq. by injection Heq.
Qed.

(** The two scaling tables never go to one file. *)
Lemma scaling_files_differ (config : yaml) (px py : string) :
  scaling_file config "gan_X_scaling_values_" = Ok px ->
  scaling_file config "gan_Y_scaling_values_" = Ok py -> px <> py.
Proof.
  unfold scaling_file.
  destruct (getitem config "gan") as [gan|]; [cbn [rbind]|discriminate].
  destruct (getitem gan "gan_path") as [gan_path|]; [cbn [rbind]|discriminate].
  destruct (getitem gan "gan_index") as [gan_index|]; [cbn [rbind]|discriminate].
  destruct (format_04d gan_index) as [number|]; [cbn [rbind]|discriminate].
  intros Hx Hy Heq.
  pose proof (fun H1 H2 => join_same_directory _ _ _ _ _ H1 H2 Hx Hy Heq) as Hxy.
  specialize (Hxy eq_refl eq_refl). discriminate Hxy.
Qed.

(** The trainer is called at most once, with the values of the
    configuration ([batch_size], [num_random_inputs], [gan_path],
    [gan_index], [num_epochs], [metrics]) as they stand there, and with the
    two scaling tables that the run has written, before the call, to the
    two scaling files.  The two files have different names, so the second
    table does not overwrite the first. *)
Theorem trainer_gets_what_was_configured_and_written (config : yaml)
    (df : DataFrame scalar) (w : World scalar Env)
    (call : train_gan_call scalar) :
  call ∈ train_calls (events (train_lorenz_gan config df w)) ->
  exists gan generator X_file Y_file,
    getitem config "gan" = Ok gan /\
    getitem gan "generator" = Ok generator /\
    getitem gan "batch_size" = Ok (tg_batch_size call) /\
    getitem generator "num_random_inputs" = Ok (tg_num_random_inputs call) /\
    getitem gan "gan_path" = Ok (tg_gan_path call) /\
    getitem gan "gan_index" = Ok (tg_gan_index call) /\
    getitem gan "num_epochs" = Ok (tg_num_epochs call) /\
    getitem gan "metrics" = Ok (tg_metrics call) /\
    scaling_file config "gan_X_scaling_values_" = Ok X_file /\
    scaling_file config "gan_Y_scaling_values_" = Ok Y_file /\
    X_file <> Y_file /\
    csv_writes (events (train_lorenz_gan config df w))
    = [(X_file, Some "Channel", tg_X_scaling_values call);
       (Y_file, Some "Channel", tg_Y_scaling_values call)] /\
    train_calls (events (train_lorenz_gan config df w)) = [call].
Proof.
  intros Hin.
  destruct (trainer_call_inv _ _ _ _ Hin)
    as (gan & generator & X_in & Y_in & X_norm & Y_norm & X_file & Y_file & B
        & gn & gk & dn & dk & loss
        & Hgan & Hgen & _ & _ & HXf & HYf & HB & _ & _ & Hbs & Hnr & Hgp & Hgi
        & Hne & Hm & _ & Hev).
  pose proof (scaling_files_differ _ _ _ HXf HYf) as Hdiff.
  exists gan, generator, X_file, Y_file. rewrite Hev, Hbs.
  repeat (split; [done|]). done.
Qed.

(** Batch sizes that fit no batch are not refused.  With a negative batch
    size nothing is trimmed: the trainer is handed every row.  With a batch
    size above the number of rows everything is trimmed: the trainer is
    called with no rows at all. *)
Theorem odd_batch_sizes_are_not_refused (config : yaml)
    (df : DataFrame scalar) (w : World scalar Env)
    (call : train_gan_call scalar) :
  call ∈ train_calls (events (train_lorenz_gan config df w)) ->
  exists X_in Y_in X_norm Y_norm B,
    normalize_calls (events (train_lorenz_gan config df w)) = [X_in; Y_in] /\
    normalize_data X_in = Ok (X_norm, tg_X_scaling_values call) /\
    normalize_data Y_in = Ok (Y_norm, tg_Y_scaling_values call) /\
    tg_batch_size call = YInt B /\
    (B < 0 -> tg_X_norm call = X_norm /\ tg_Y_norm call = Y_norm) /\
    (Z.of_nat (length X_norm) < B -> length Y_norm = length X_norm ->
     tg_X_norm call = [] /\ tg_Y_norm call = []).
Proof.
  intros Hin.
  destruct (trainer_call_inv _ _ _ _ Hin)
    as (gan & generator & X_in & Y_in & X_norm & Y_norm & X_file & Y_file & B
        & gn & gk & dn & dk & loss
        & _ & _ & HX & HY & _ & _ & _ & HB & Htrim & Hbs & _ & _ & _
        & _ & _ & _ & Hev).
  exists X_in, Y_in, X_norm, Y_norm, B. rewrite Hev.
  do 4 (split; [done|]). split.
  - intros Hneg.
    assert (B < Z.of_nat (length X_norm) mod B <= 0)
      by (apply Z.mod_neg_bound; lia).
    unfold trim_rows in Htrim.
    destruct (Z.ltb_spec 0 (Z.of_nat (length X_norm) mod B)); [lia|].
    by injection Htrim as -> ->.
  - intros Hbig Hlen.
    destruct (trim_rows_facts _ _ _ _ _ Htrim) as (_ & _ & HXn & HYn & _);
      [lia|done|].
    rewrite Z.mod_small in HXn, HYn by lia.
    split; apply length_zero_iff_nil; lia.
Qed.

(** A batch size of zero is found late.  The run ends in an exception
    having made at most the first four calls: both inputs may have been
    normalized and both scaling tables written, but no model is built and
    nothing is trained. *)
Theorem zero_batch_size_stops_before_any_model (config gan : yaml)
    (df : DataFrame scalar) (w : World scalar Env) :
  getitem config "gan" = Ok gan ->
  getitem gan "batch_size" = Ok (YInt 0) ->
  (exists e, outcome (train_lorenz_gan config df w) = Raise e) /\
  calls (events (train_lorenz_gan config df w))
  `prefix_of` [Normalize; Normalize; WriteTable; WriteTable] /\
  model_builds (events (train_lorenz_gan config df w)) = [] /\
  train_calls (events (train_lorenz_gan config df w)) = [].
Proof.
  intros Hgan Hbatch. unfold train_lorenz_gan. rewrite Hgan.
  run_all ltac:(idtac;
                first [ split; [eexists; reflexivity|];
                        split; [repeat first [apply prefix_nil | apply prefix_cons]|];
                        split; reflexivity
                      | exfalso; simplify_eq;
                        match goal with
                        | Hm : py_mod _ (YInt 0) = Ok _ |- _ =>
                            cbn in Hm; discriminate Hm
                        end ]).
Qed.

Lemma index_of_lt (name : string) (names : list string) (p : nat) :
  index_of name names = Some p -> (p < length names)%nat.
Proof.
  revert p. induction names as [|n names IH]; intros p; cbn; [done|].
  destruct (String.eqb name n).
  - intros [= <-]. lia.
  - destruct (index_of name names) as [q|]; cbn; [|done].
    intros [= <-]. specialize (IH q eq_refl). lia.
Qed.

Lemma index_of_None (name : string) (names : list string) :
  index_of name names = None <-> name ∉ names.
Proof.
  induction names as [|n names IH]; cbn.
  - split; [intros _; apply not_elem_of_nil|done].
  - destruct (String.eqb_spec name n) as [->|Hne].
    + split; [done|]. intros Hn. exfalso. apply Hn. left.
    + rewrite not_elem_of_cons. destruct (index_of name names); cbn.
      * split; [done|]. intros [_ Hn]. by apply IH in Hn.
      * split; [|done]. intros _. split; [done|]. by apply IH.
Qed.

(** [df[cols]] succeeds when every column asked for is there, and raises
    [KeyError] for a column that is not. *)
Lemma df_getitem_columns (df : DataFrame scalar) (cols : list string) :
  match df_getitem df cols with
  | Ok frame => Forall (fun c => (c ∈ columns df)) cols
  | Raise e => exists c, (c ∈ cols) /\ (c ∉ columns df) /\ e = KeyError c
  end.
Proof.
  unfold df_getitem.
  induction cols as [|c cols IH]; cbn [rmapM rbind]; [done|].
  destruct (index_of c (columns df)) as [p|] eqn:Hc; cbn [rbind].
  - assert (c ∈ columns df).
    { destruct (decide (c ∈ columns df)) as [|Hn]; [done|].
      apply index_of_None in Hn. congruence. }
    destruct (rmapM _ cols) as [ps|e]; cbn [rbind] in *.
    + by constructor.
    + destruct IH as (c' & Hin & Hout & ->). exists c'.
      split; [by right|done].
  - exists c. split; [left|]. split; [by apply index_of_None|done].
Qed.

(** A table that lacks one of the columns the configuration asks for (a
    lag [X_t-k] below [num_cond_inputs] or a target [Y_k] below [J]) stops
    the function with [KeyError] for a missing column, before any call is
    made: nothing is normalized, written or built. *)
Theorem missing_column_stops_before_any_call (config : yaml)
    (df : DataFrame scalar) (w : World scalar Env)
    (gan generator lorenz : yaml) (n j : Z) (c : string) :
  getitem config "gan" = Ok gan ->
  getitem gan "generator" = Ok generator ->
  getitem generator "num_cond_inputs" = Ok (YInt n) ->
  getitem config "lorenz" = Ok lorenz ->
  getitem lorenz "J" = Ok (YInt j) ->
  c ∈ (map lag_name (seq 0 (Z.to_nat n))
       ++ map target_name (seq 0 (Z.to_nat j)))%list ->
  c ∉ columns df ->
  exists c', (c' ∉ columns df) /\
             train_lorenz_gan config df w = quiet (Raise (KeyError c')) w.
Proof.
  intros Hgan Hgen Hn Hlorenz HJ Hc Hout. unfold train_lorenz_gan.
  rewrite bind_lift, Hgan, bind_lift, Hgen, bind_lift, Hn, bind_lift.
  cbn [np_arange]. rewrite x_cols_of_lags, bind_lift.
  pose proof (df_getitem_columns df (map lag_name (seq 0 (Z.to_nat n)))) as HX.
  destruct (df_getitem df (map lag_name _)) as [X_frame|e].
  2:{ destruct HX as (c' & _ & Hc' & ->). by exists c'. }
  rewrite bind_lift, Hlorenz, bind_lift, HJ, bind_lift.
  cbn [py_range]. rewrite y_cols_of_targets, bind_lift.
  pose proof (df_getitem_columns df (map target_name (seq 0 (Z.to_nat j)))) as HY.
  destruct (df_getitem df (map target_name _)) as [Y_frame|e].
  2:{ destruct HY as (c' & _ & Hc' & ->). by exists c'. }
  exfalso. apply Hout. rewrite Forall_forall in HX, HY.
  apply elem_of_app in Hc as [Hc|Hc]; auto.
Qed.

Lemma df_getitem_rows (df frame : DataFrame scalar) (cols : list string) :
  df_getitem df cols = Ok frame -> rectangular df ->
  length (values frame) = length (values df) /\
  Forall (fun row => length row = length cols) (values frame).
Proof.
  unfold df_getitem, rectangular.
  destruct (rmapM _ cols) as [ps|] eqn:Hps; [cbn|discriminate].
  intros [= <-] Hrect. cbn. split; [by rewrite length_map|].
  assert (Hlt : Forall (fun p => (p < length (columns df))%nat) ps).
  { clear Hrect. revert ps Hps. induction cols as [|c cols IH]; intros ps; cbn.
    - by intros [= <-].
    - destruct (index_of c (columns df)) as [p|] eqn:Hc; [cbn|discriminate].
      destruct (rmapM _ cols) as [qs|]; [cbn|discriminate].
      intros [= <-]. constructor; [by eapply index_of_lt|by apply IH]. }
  apply Forall_map. eapply Forall_impl; [exact Hrect|].
  intros row Hrow. cbn.
  destruct (omap_lookup_in_range row ps) as [-> _]; [by rewrite Hrow|].
  by apply rmapM_length in Hps.
Qed.

Lemma expand_dims_shape (a : list (list scalar)) (chans : nat) :
  Forall (fun row => length row = chans) a ->
  has_shape (expand_dims a) (length a) chans 1.
Proof.
  intros Ha. unfold has_shape, expand_dims. split; [by rewrite length_map|].
  apply Forall_map. eapply Forall_impl; [exact Ha|].
  intros row Hrow. cbn. split; [by rewrite length_map|].
  apply Forall_map, Forall_forall. by intros v _.
Qed.

(** The two arrays handed to [normalize_data], for a table whose columns
    have different names and whose rows all have one cell per column: the
    conditioning inputs have shape
    (rows of the table, [num_cond_inputs], 1); the targets have shape
    (rows of the table, [J], 1), or (rows of the table, 1, 1) in [mean]
    mode.  No row of the table is dropped or added before normalizing. *)
Theorem normalized_arrays_keep_the_rows (config : yaml)
    (df : DataFrame scalar) (w : World scalar Env)
    (X_in Y_in : array3 scalar) (rest : list (array3 scalar)) :
  NoDup (columns df) -> rectangular df ->
  normalize_calls (events (train_lorenz_gan config df w))
  = X_in :: Y_in :: rest ->
  exists gan generator n lorenz j output,
    getitem config "gan" = Ok gan /\
    getitem gan "generator" = Ok generator /\
    getitem generator "num_cond_inputs" = Ok (YInt n) /\
    getitem config "lorenz" = Ok lorenz /\
    getitem lorenz "J" = Ok (YInt j) /\
    getitem gan "output" = Ok (YStr output) /\
    has_shape X_in (length (values df)) (Z.to_nat n) 1 /\
    has_shape Y_in (length (values df))
              (if String.eqb (lower output) "mean" then 1 else Z.to_nat j) 1.
Proof.
  intros _ Hrect. unfold train_lorenz_gan.
  run_all ltac:(idtac; intros Hc; discriminate Hc).
  all: intros Hc; injection Hc as <- <- <-; simplify_eq.
  all: match goal with
       | Hr : py_range _ = Ok _ |- _ => apply py_range_inv in Hr as (j & -> & ->)
       end.
  all: match goal with
       | Hr : np_arange _ = Ok _ |- _ => apply np_arange_inv in Hr as (n & -> & ->)
       end.
  all: match goal with
       | Hl : str_lower _ = Ok _ |- _ => apply str_lower_inv in Hl as (output & -> & ->)
       end.
  all: match goal with
       | HX : df_getitem _ (x_cols_of _) = Ok _,
         HY : df_getitem _ (y_cols_of _) = Ok _ |- _ =>
           destruct (df_getitem_rows _ _ _ HX Hrect) as [HXn HXrows];
           destruct (df_getitem_rows _ _ _ HY Hrect) as [HYn HYrows]
       end.
  all: rewrite x_cols_of_map, length_map, length_map, length_seq in HXrows.
  all: unfold y_cols_of in HYrows;
       rewrite length_map, length_map, length_seq in HYrows.
  all: do 6 eexists; do 6 (split; [first [reflexivity|eassumption]|]).
  all: split; [rewrite <- HXn; by apply expand_dims_shape|].
  all: unfold y_target; destruct (String.eqb (lower output) "mean").
  all: rewrite <- HYn.
  all: try (by apply expand_dims_shape).
  all: rewrite mean_target_rows; unfold has_shape; rewrite length_map;
       (split; [done|]); apply Forall_map, Forall_forall; intros row _; cbn;
       (split; [done|]); by repeat constructor.
Qed.

Lemma lag_name_inj : Inj (=) (=) lag_name.
Proof.
  intros [|t] [|t']; unfold lag_name; try done.
  - intros Heq. apply (inj (String.append "X_t-")) in Heq.
    apply (inj pretty) in Heq. lia.
Qed.

Lemma target_name_inj : Inj (=) (=) target_name.
Proof.
  intros y y' Heq. unfold target_name in Heq.
  apply (inj (String.append "Y_")) in Heq. apply (inj pretty) in Heq. lia.
Qed.

(** The columns selected from the table have pairwise different names,
    whatever [num_cond_inputs] and [J] are: no lag and no target is
    selected twice, and no conditioning column is a target column. *)
Theorem selected_columns_are_distinct (n j : nat) :
  NoDup (x_cols_of (map Z.of_nat (seq 0 n))
         ++ y_cols_of (map Z.of_nat (seq 0 j)))%list.
Proof.
  rewrite x_cols_of_lags, y_cols_of_targets. apply NoDup_app.
  split; [|split].
  - apply (NoDup_fmap_2 _ (Inj0 := lag_name_inj)), NoDup_seq.
  - intros c [t [-> _]]%list_elem_of_fmap [y [Heq _]]%list_elem_of_fmap.
    destruct t; discriminate Heq.
  - apply (NoDup_fmap_2 _ (Inj0 := target_name_inj)), NoDup_seq.
Qed.




End TrainCalls.

(** ** Runs of [main] *)

Section MainRuns.
Context {scalar Env model : Type}.
Context {numeric : Numeric scalar} {lorenz_gan : Collaborators scalar Env model}.

Ltac run_step :=
  first
    [ rewrite bind_assoc
    | rewrite bind_ret
    | rewrite bind_emit
    | rewrite bind_to_csv
    | rewrite bind_call_normalize_data
    | rewrite bind_call_builder
    | rewrite bind_call_initialize_gan
    | rewrite call_train_gan_run
    | rewrite bind_lift ].

Ltac main_step :=
  first
    [ rewrite bind_assoc
    | rewrite bind_ret
    | rewrite bind_emit
    | rewrite bind_to_csv
    | rewrite bind_load_yaml
    | rewrite bind_exists
    | rewrite bind_mkdir
    | rewrite bind_read_csv
    | rewrite bind_generate_lorenz_data
    | rewrite bind_call_process_lorenz_data
    | rewrite bind_call_save_lorenz_output
    | rewrite bind_lift ].

Ltac main_case :=
  match goal with
  | |- context [match ?r with Ok _ => _ | Raise _ => _ end] =>
      destruct r as [?|?] eqn:?
  | |- context [if ?c then _ else _] => destruct c eqn:?
  | |- context [let (_, _) := ?p in _] => destruct p as [? ?]
  | |- context [match ?p with (_, _) => _ end] => destruct p as [? ?]
  | |- context [match ?v with
                | YInt _ => _ | YFloat _ => _ | YStr _ => _
                | YSeq _ => _ | YMap _ => _
                end] => destruct v
  end.

Ltac main_simpl :=
  cbn [rbind after events outcome final quiet call_event
       calls call_of map model_builds gan_inits mkdirs
       stages train_calls normalize_calls csv_writes omap stage_of
       list_omap option_bind mbind].

(** [train_lorenz_gan] makes no directory. *)
Lemma train_lorenz_gan_mkdirs (config : yaml) (df : DataFrame scalar)
    (w : World scalar Env) :
  omap (fun e : Event scalar => match e with EvMkdir p => Some p | _ => None end)
       (events (train_lorenz_gan config df w)) = [].
Proof.
  unfold train_lorenz_gan.
  repeat (first [run_step | main_case]; main_simpl; try reflexivity).
Qed.

(** A directory is made at most once in a run, and only the directory
    [config["gan"]["gan_path"]] when nothing exists at that path: a run
    that finds the directory makes none, with or without the reload flag. *)
Theorem directory_is_made_only_when_missing (args : Args)
    (w : World scalar Env) (p : string) :
  p ∈ mkdirs (events (main args w)) ->
  exists config gan,
    yaml_at w (config_file args) = Ok config /\
    getitem config "gan" = Ok gan /\
    getitem gan "gan_path" = Ok (YStr p) /\
    disk w !! p = None /\
    mkdirs (events (main args w)) = [p].
Proof.
  unfold main.
  repeat (first [main_step | main_case]; main_simpl;
          rewrite ?train_lorenz_gan_mkdirs;
          try (solve [intros Hin; by apply elem_of_nil in Hin])).
  all: intros Hin%list_elem_of_singleton; subst p.
  all: match goal with
       | H : bool_decide (is_Some (disk _ !! _)) = false |- _ =>
           apply bool_decide_eq_false_1 in H;
           apply eq_None_not_Some in H
       end.
  all: simplify_eq.
  all: eexists _, _; (split; [reflexivity|]); by do 3 (split; [eassumption|]).
Qed.

Lemma as_path_inv (v : yaml) (p : string) : as_path v = Ok p -> v = YStr p.
Proof. destruct v; try discriminate. by intros [= <-]. Qed.

(** A run without the reload flag that gets as far as normalizing has
    gone through the whole pipeline on one trajectory and one table: the
    trajectory [generate_lorenz_data] returned is the one the features are
    built from and the one saved, with [config["lorenz"]] beside it, to
    [output_nc_file]; the table [process_lorenz_data] returned is the one
    written to [output_csv_file] without its index, printed, and handed to
    [train_lorenz_gan], which runs once that file is on disk. *)
Theorem fresh_run_trains_on_what_it_saved (args : Args) (w : World scalar Env) :
  reload args = false ->
  normalize_calls (events (main args w)) <> [] ->
  exists config lorenz gan generator a skip raw tr n J x_skip t_skip table
         nc csv made w',
    yaml_at w (config_file args) = Ok config /\
    getitem config "lorenz" = Ok lorenz /\
    getitem config "gan" = Ok gan /\
    getitem gan "generator" = Ok generator /\
    getitem generator "num_cond_inputs" = Ok n /\
    getitem lorenz "J" = Ok J /\
    getitem gan "x_skip" = Ok x_skip /\
    getitem gan "t_skip" = Ok t_skip /\
    integrator_arguments lorenz = Ok (a, skip) /\
    integrate (hidden w) a = Ok raw /\
    trimmed lorenz skip raw = Ok tr /\
    process_lorenz_data tr n J x_skip t_skip = Ok table /\
    getitem config "output_nc_file" = Ok nc /\
    getitem config "output_csv_file" = Ok (YStr csv) /\
    disk w' !! csv = Some (FCsv None table) /\
    events (main args w)
    = (EvOpen (config_file args) :: map EvMkdir made
       ++ [call_event a; EvProcess tr n J x_skip t_skip;
           EvSaveLorenz tr lorenz nc; EvToCsv csv None table;
           EvPrintFrame table]
       ++ events (train_lorenz_gan config table w'))%list /\
    outcome (main args w) = outcome (train_lorenz_gan config table w').
Proof.
  intros Hreload. unfold main. rewrite Hreload.
  repeat (first [main_step | main_case]; main_simpl;
          try (solve [intros Hc; by destruct Hc])).
  all: intros _; simplify_eq.
  all: match goal with
       | H : as_path _ = Ok _ |- _ => apply as_path_inv in H as ->
       end.
  all: match goal with
       | H : rbind (integrate _ _) _ = Ok _ |- _ =>
           let raw := fresh "raw" in
           let Hraw := fresh "Hraw" in
           destruct (integrate _ _) as [raw|] eqn:Hraw; [cbn [rbind] in H|discriminate H]
       end.
  all: cbn [hidden wrote] in *.
  all: lazymatch goal with
       | _ : bool_decide (is_Some (disk _ !! ?q)) = false |- _ =>
           do 15 eexists; exists [q]; eexists
       | _ => do 15 eexists; exists []; eexists
       end.
  all: do 14 (split; [first [reflexivity|eassumption]|]).
  all: (split; [|split; reflexivity]).
  all: cbn [wrote disk]; apply lookup_insert_eq.
Qed.

End MainRuns.


(** * The scenario, run *)

(** C1 fails as stated.  On [K=4, J=2, num_steps=100, skip=2, burn_in=5]
    the function hands on 48 frames, not [100/2 - 5 = 45], whether the
    integrator returns 100 raw frames or 101: the first 5 raw steps are
    dropped and every second one of the rest is kept, so the first frame
    kept is raw step 5, which a series subsampled by 2 does not contain. *)
Lemma scenario_keeps_48_frames :
  (exists tr,
      outcome (generate_lorenz_data (lorenz_gan := stand_in 0)
                 (YMap scenario_lorenz) (fresh_world scenario 0)) = Ok tr /\
      length (X_out tr) = 48%nat /\
      Z.of_nat (length (X_out tr)) <> 100 / 2 - 5 /\
      steps tr !! 0%nat = Some 5) /\
  (exists tr,
      outcome (generate_lorenz_data (lorenz_gan := stand_in 1)
                 (YMap scenario_lorenz) (fresh_world scenario 0)) = Ok tr /\
      length (X_out tr) = 48%nat /\
      Z.of_nat (length (X_out tr)) <> 100 / 2 - 5 /\
      steps tr !! 0%nat = Some 5).
Proof.
  split; eexists; (split; [vm_compute; reflexivity|]); cbn [X_out steps];
    (split; [reflexivity|]); (split; [vm_compute; discriminate|reflexivity]).
Qed.

(** C1 (as amended), on the scenario: 48 frames, frame [f] being raw
    frame [5 + 2 f]. *)
Lemma frames_after_burn_in_then_skip_scenario :
  exists tr,
    outcome (generate_lorenz_data (lorenz_gan := stand_in 0)
               (YMap scenario_lorenz) (fresh_world scenario 0)) = Ok tr /\
    Z.of_nat (length (X_out tr)) = kept 100 5 2 /\
    kept 100 5 2 = 48.
Proof.
  destruct (frames_after_burn_in_then_skip (lorenz_gan := stand_in 0)
              (YMap scenario_lorenz) (fresh_world scenario 0)
              4 2 5 2 (YInt 1) (YInt 30) (YInt 10) (YInt 10)
              (YFloat (1 # 1000)) (YInt 100)
              scenario_raw)
    as (tr & Hout & HX & _); try lia; try reflexivity.
  exists tr. split; [exact Hout|]. split; [exact HX|reflexivity].
Defined.

(** C10, on the scenario: the four trimmed sequences have one length. *)
Lemma trim_selects_the_same_steps_scenario :
  length (Y_out scenario_trimmed) = length (X_out scenario_trimmed) /\
  length (times scenario_trimmed) = length (X_out scenario_trimmed) /\
  length (steps scenario_trimmed) = length (X_out scenario_trimmed).
Proof.
  destruct (trim_selects_the_same_steps (lorenz_gan := stand_in 0)
              (YMap scenario_lorenz) (fresh_world scenario 0) scenario_trimmed)
    as (X & Y & h & F & b & c & ts & ns & raw & Hev & Hraw & Hsame);
    [vm_compute; reflexivity|].
  vm_compute in Hev. injection Hev as <- <- <- <- <- <- <- <-.
  vm_compute in Hraw. injection Hraw as <-.
  destruct Hsame as (ps & HX & HY & Ht & Hs & _); [reflexivity..|].
  rewrite HX, HY, Ht, Hs. repeat split.
Defined.


(** C6 fails as stated.  With [burn_in] missing from an otherwise valid
    configuration, the run ends in [KeyError] only after the integrator
    has been called with the full set of valid parameters. *)
Lemma missing_burn_in_is_found_after_the_simulation :
  outcome (main (lorenz_gan := stand_in 0)
             {| config_file := "lorenz.yaml"; reload := false |}
             (fresh_world scenario_without_burn_in 0))
  = Raise (KeyError "burn_in") /\
  events (main (lorenz_gan := stand_in 0)
            {| config_file := "lorenz.yaml"; reload := false |}
            (fresh_world scenario_without_burn_in 0))
  = [EvOpen "lorenz.yaml"; EvMkdir "./exp";
     EvRunLorenz (one_hot float32 4) (one_hot float32 8)
                 (YInt 1) (YInt 30) (YInt 10) (YInt 10)
                 (YFloat (1 # 1000)) (YInt 100)].
Proof. split; vm_compute; reflexivity. Qed.

(** C6 (as amended), on three configurations: [num_steps] missing, [K = 0],
    [J = -1].  Each run raises having called nothing. *)
Lemma fields_are_checked_where_used_scenario :
  (exists e, generate_lorenz_data (lorenz_gan := stand_in 0)
               (YMap (delete "num_steps" scenario_lorenz))
               (fresh_world scenario 0)
             = quiet (Raise e) (fresh_world scenario 0)) /\
  (exists e, generate_lorenz_data (lorenz_gan := stand_in 0)
               (YMap (<["K" := YInt 0]> scenario_lorenz))
               (fresh_world scenario 0)
             = quiet (Raise e) (fresh_world scenario 0)) /\
  (exists e, generate_lorenz_data (lorenz_gan := stand_in 0)
               (YMap (<["J" := YInt (-1)]> scenario_lorenz))
               (fresh_world scenario 0)
             = quiet (Raise e) (fresh_world scenario 0)).
Proof.
  split; [|split].
  - apply (proj1 (fields_are_checked_where_used (lorenz_gan := stand_in 0) _ _)).
    left. exists "num_steps", (KeyError "num_steps").
    split; [repeat constructor|reflexivity].
  - apply (proj1 (fields_are_checked_where_used (lorenz_gan := stand_in 0) _ _)).
    right. left. exists 0. split; [reflexivity|lia].
  - apply (proj1 (fields_are_checked_where_used (lorenz_gan := stand_in 0) _ _)).
    right. right. exists (-1). split; [reflexivity|lia].
Defined.

(** ** [main] and [train_lorenz_gan] on concrete machines *)

(** C2 fails as stated.  On the scenario, the flat feature table is built
    before the raw trajectory is persisted: the stages are gone through in
    the order integrate, build, persist raw, persist flat, and not in the
    order integrate, persist raw, build, persist flat. *)
Lemma features_are_built_before_the_raw_file_is_written :
  stages (events (main (lorenz_gan := stand_in 0)
                    {| config_file := "lorenz.yaml"; reload := false |}
                    (fresh_world scenario 0)))
  = [Integrate; BuildFeatures; PersistRaw; PersistFlat] /\
  stages (events (main (lorenz_gan := stand_in 0)
                    {| config_file := "lorenz.yaml"; reload := false |}
                    (fresh_world scenario 0)))
  <> [Integrate; PersistRaw; BuildFeatures; PersistFlat].
Proof. split; [vm_compute; reflexivity|vm_compute; discriminate]. Qed.

(** C2 (as amended), on the scenario. *)
Lemma stages_run_in_order_scenario :
  stages (events (main (lorenz_gan := stand_in 0)
                    {| config_file := "lorenz.yaml"; reload := false |}
                    (fresh_world scenario 0)))
  `prefix_of` pipeline_order /\
  (outcome (main (lorenz_gan := stand_in 0)
              {| config_file := "lorenz.yaml"; reload := false |}
              (fresh_world scenario 0)) = Ok tt ->
   stages (events (main (lorenz_gan := stand_in 0)
                     {| config_file := "lorenz.yaml"; reload := false |}
                     (fresh_world scenario 0)))
   = [Integrate; BuildFeatures; PersistRaw; PersistFlat]).
Proof.
  apply (stages_run_in_order (lorenz_gan := stand_in 0)). reflexivity.
Defined.


(** C4, on a table of five rows and batches of two: four rows are kept. *)
Lemma rows_are_trimmed_to_whole_batches_scenario :
  length (tg_X_norm small_call) = 4%nat /\
  length (tg_Y_norm small_call) = 4%nat /\
  Z.of_nat 4 = 5 - 5 mod 2.
Proof.
  destruct (rows_are_trimmed_to_whole_batches (lorenz_gan := stand_in 0)
              scenario_small small_table (reload_world scenario_small)
              small_call)
    as (X_in & Y_in & X_norm & X_scaling & Y_norm & Y_scaling & gan & B
        & Hcalls & HX & HY & Hgan & HB & _ & Hkept).
  { vm_compute. left. }
  vm_compute in Hgan. injection Hgan as <-.
  vm_compute in HB. injection HB as <-.
  vm_compute in Hcalls. injection Hcalls as <- <-.
  vm_compute in HX. injection HX as <- <-.
  vm_compute in HY. injection HY as <- <-.
  destruct Hkept as (_ & _ & HXn & HYn & _); [lia|reflexivity|].
  rewrite HXn, HYn. repeat split.
Defined.




(** ** The further properties on concrete machines *)

(** On the scenario, the 48 frames kept are a subsequence of the 100 raw
    ones. *)
Lemma kept_frames_are_a_subsequence_scenario :
  X_out scenario_trimmed `sublist_of` X_out scenario_raw /\
  steps scenario_trimmed `sublist_of` steps scenario_raw.
Proof.
  destruct (kept_frames_are_a_subsequence (lorenz_gan := stand_in 0)
              (YMap scenario_lorenz) (fresh_world scenario 0)
              scenario_trimmed 2)
    as (X & Y & h & F & b & c & ts & ns & raw & Hev & Hraw & HX & _ & _ & Hs);
    [vm_compute; reflexivity|reflexivity|lia|].
  vm_compute in Hev. injection Hev as <- <- <- <- <- <- <- <-.
  vm_compute in Hraw. injection Hraw as <-.
  split; [exact HX|exact Hs].
Defined.

(** On the scenario with [burn_in = -10]: the frames 90, 92, ..., 98. *)
Lemma negative_burn_in_counts_from_the_end_scenario :
  exists tr,
    outcome (generate_lorenz_data (lorenz_gan := stand_in 0)
               (scenario_lorenz_with (-10) 2) (fresh_world scenario 0)) = Ok tr /\
    Z.of_nat (length (steps tr)) = 5 /\
    steps tr !! 0%nat = Some 90 /\ steps tr !! 4%nat = Some 98.
Proof.
  destruct (negative_burn_in_counts_from_the_end (lorenz_gan := stand_in 0)
              (scenario_lorenz_with (-10) 2) (fresh_world scenario 0)
              scenario_call scenario_raw (-10) 2)
    as (tr & Hout & Hcut); [reflexivity|reflexivity|reflexivity|lia|lia|].
  destruct Hcut as (_ & _ & _ & Hn & Hget).
  assert (Hn' : Z.of_nat (length (steps tr)) = 5) by exact Hn.
  exists tr. split; [exact Hout|]. split; [exact Hn'|].
  rewrite (Hget 0%nat), (Hget 4%nat) by lia. split; reflexivity.
Defined.

(** On the scenario with [skip = 0]: [ValueError], after the integrator
    has been called. *)
Lemma zero_skip_fails_after_the_simulation_scenario :
  outcome (generate_lorenz_data (lorenz_gan := stand_in 0)
             (scenario_lorenz_with 5 0) (fresh_world scenario 0))
  = Raise ValueError /\
  events (generate_lorenz_data (lorenz_gan := stand_in 0)
            (scenario_lorenz_with 5 0) (fresh_world scenario 0))
  = [call_event scenario_call].
Proof.
  destruct (zero_skip_fails_after_the_simulation (lorenz_gan := stand_in 0)
              (scenario_lorenz_with 5 0) (fresh_world scenario 0)
              scenario_call (YInt 5))
    as (Hev & Hout & _); [reflexivity|reflexivity|].
  split; [apply (Hout scenario_raw); reflexivity|exact Hev].
Defined.

(** On the scenario with [skip = -2]: the frames 5, 3, 1. *)
Lemma negative_skip_walks_backwards_scenario :
  exists tr,
    outcome (generate_lorenz_data (lorenz_gan := stand_in 0)
               (scenario_lorenz_with 5 (-2)) (fresh_world scenario 0)) = Ok tr /\
    Z.of_nat (length (steps tr)) = 3 /\
    steps tr !! 0%nat = Some 5 /\ steps tr !! 2%nat = Some 1.
Proof.
  destruct (negative_skip_walks_backwards (lorenz_gan := stand_in 0)
              (scenario_lorenz_with 5 (-2)) (fresh_world scenario 0)
              scenario_call scenario_raw 5 2)
    as (tr & Hout & Hcut); [reflexivity|reflexivity|reflexivity|lia|lia|].
  destruct Hcut as (_ & _ & _ & Hn & Hget).
  assert (Hn' : Z.of_nat (length (steps tr)) = 3) by exact Hn.
  exists tr. split; [exact Hout|]. split; [exact Hn'|].
  rewrite (Hget 0%nat), (Hget 2%nat) by lia. split; reflexivity.
Defined.

(** On the table of five rows: the generator built is the convolutional
    one, with the generator section of the configuration. *)
Lemma structure_selects_the_builders_scenario :
  exists gan structure,
    getitem scenario_small "gan" = Ok gan /\
    getitem gan "structure" = Ok structure /\
    (("generator_conv" = (if eq_str structure "dense"
                          then "generator_dense" else "generator_conv") /\
      getitem gan "generator" = Ok (YMap scenario_generator)) \/
     ("generator_conv" = (if eq_str structure "dense"
                          then "discriminator_dense" else "discriminator_conv") /\
      getitem gan "discriminator" = Ok (YMap scenario_generator))).
Proof.
  apply (structure_selects_the_builders (lorenz_gan := stand_in 0)
           scenario_small small_table (reload_world scenario_small)).
  vm_compute. left.
Defined.

(** On the table of five rows: the one call of the trainer. *)
Lemma trainer_gets_what_was_configured_and_written_scenario :
  exists gan generator,
    getitem scenario_small "gan" = Ok gan /\
    getitem gan "generator" = Ok generator /\
    getitem gan "batch_size" = Ok (tg_batch_size small_call) /\
    getitem generator "num_random_inputs"
    = Ok (tg_num_random_inputs small_call) /\
    small_written
    = [("./exp/gan_X_scaling_values_0000.csv", Some "Channel",
        tg_X_scaling_values small_call);
       ("./exp/gan_Y_scaling_values_0000.csv", Some "Channel",
        tg_Y_scaling_values small_call)].
Proof.
  destruct (trainer_gets_what_was_configured_and_written
              (lorenz_gan := stand_in 0) scenario_small small_table
              (reload_world scenario_small) small_call)
    as (gan & generator & X_file & Y_file & Hgan & Hgen & Hbs & Hnr & _ & _ & _
        & _ & HXf & HYf & _ & Hw & _).
  { vm_compute. left. }
  vm_compute in HXf. injection HXf as <-.
  vm_compute in HYf. injection HYf as <-.
  exists gan, generator. do 4 (split; [assumption|]). exact Hw.
Defined.

(** On the table of five rows: the optimizer handed to [initialize_gan]. *)
Lemma optimizer_is_fixed_scenario :
  Adam (1 # 10000) (1 # 2) = Adam (1 # 10000) (1 # 2) /\
  exists gan,
    getitem scenario_small "gan" = Ok gan /\
    getitem gan "loss" = Ok (YStr "binary_crossentropy") /\
    getitem gan "metrics" = Ok (YSeq [YStr "accuracy"]).
Proof.
  apply (optimizer_is_fixed (lorenz_gan := stand_in 0)
           scenario_small small_table (reload_world scenario_small)).
  vm_compute. left.
Defined.

(** With batches of zero rows on the table of five rows: both scaling
    tables are written, and the run ends in [ZeroDivisionError]. *)
Lemma zero_batch_size_stops_before_any_model_scenario :
  outcome (train_lorenz_gan (lorenz_gan := stand_in 0) (scenario_batch 0)
             small_table (reload_world (scenario_batch 0)))
  = Raise ZeroDivisionError /\
  calls (events (train_lorenz_gan (lorenz_gan := stand_in 0) (scenario_batch 0)
                   small_table (reload_world (scenario_batch 0))))
  = [Normalize; Normalize; WriteTable; WriteTable] /\
  model_builds (events (train_lorenz_gan (lorenz_gan := stand_in 0)
                          (scenario_batch 0) small_table
                          (reload_world (scenario_batch 0)))) = [].
Proof.
  destruct (zero_batch_size_stops_before_any_model (lorenz_gan := stand_in 0)
              (scenario_batch 0) (YMap (scenario_gan "sample" 0)) small_table
              (reload_world (scenario_batch 0)))
    as (_ & _ & Hm & _); [reflexivity|reflexivity|].
  split; [vm_compute; reflexivity|]. split; [vm_compute; reflexivity|exact Hm].
Defined.

(** A table made for two conditioning inputs, used with three. *)
Lemma missing_column_stops_before_any_call_scenario :
  exists c', (c' ∉ columns narrow_table) /\
             train_lorenz_gan (lorenz_gan := stand_in 0) scenario_small
               narrow_table (reload_world scenario_small)
             = quiet (Raise (KeyError c')) (reload_world scenario_small).
Proof.
  apply (missing_column_stops_before_any_call (lorenz_gan := stand_in 0)
           scenario_small narrow_table (reload_world scenario_small)
           (YMap (scenario_gan "sample" 2)) (YMap scenario_generator)
           (YMap scenario_lorenz) 3 2 "X_t-2");
    try reflexivity.
  - vm_compute. do 2 right. left.
  - intros Hin.
    repeat (apply elem_of_cons in Hin as [Hin|Hin]; [discriminate Hin|]).
    by apply elem_of_nil in Hin.
Defined.

(** On the table of five rows: arrays of shape (5, 3, 1) and (5, 2, 1). *)
Lemma normalized_arrays_keep_the_rows_scenario :
  has_shape (default [] (small_normalized !! 0%nat)) 5 3 1 /\
  has_shape (default [] (small_normalized !! 1%nat)) 5 2 1.
Proof.
  destruct (normalized_arrays_keep_the_rows (lorenz_gan := stand_in 0)
              scenario_small small_table (reload_world scenario_small)
              (default [] (small_normalized !! 0%nat))
              (default [] (small_normalized !! 1%nat)) [])
    as (gan & generator & n & lorenz & j & output
        & Hgan & Hgen & Hn & Hlorenz & HJ & Hout & HX & HY).
  { apply (bool_decide_unpack _). vm_compute. exact I. }
  { repeat constructor. }
  { vm_compute. reflexivity. }
  vm_compute in Hgan. injection Hgan as <-.
  vm_compute in Hgen. injection Hgen as <-.
  vm_compute in Hn. injection Hn as <-.
  vm_compute in Hlorenz. injection Hlorenz as <-.
  vm_compute in HJ. injection HJ as <-.
  vm_compute in Hout. injection Hout as <-.
  split; [exact HX|exact HY].
Defined.

(** On the table of five rows: batches of eight rows leave the trainer no
    row; batches of minus two rows leave it all five. *)
Lemma odd_batch_sizes_are_not_refused_scenario :
  tg_X_norm (small_call_with 8) = [] /\
  length (tg_X_norm (small_call_with (-2))) = 5%nat.
Proof.
  split.
  - destruct (odd_batch_sizes_are_not_refused (lorenz_gan := stand_in 0)
                (scenario_batch 8) small_table (reload_world (scenario_batch 8))
                (small_call_with 8))
      as (X_in & Y_in & X_norm & Y_norm & B & Hcalls & HX & HY & HB & _ & Hbig).
    { vm_compute. left. }
    vm_compute in HB. injection HB as <-.
    vm_compute in Hcalls. injection Hcalls as <- <-.
    vm_compute in HX. injection HX as <-.
    vm_compute in HY. injection HY as <-.
    apply Hbig; [cbn; lia|reflexivity].
  - destruct (odd_batch_sizes_are_not_refused (lorenz_gan := stand_in 0)
                (scenario_batch (-2)) small_table
                (reload_world (scenario_batch (-2))) (small_call_with (-2)))
      as (X_in & Y_in & X_norm & Y_norm & B & Hcalls & HX & HY & HB & Hneg & _).
    { vm_compute. left. }
    vm_compute in HB. injection HB as <-.
    vm_compute in Hcalls. injection Hcalls as <- <-.
    vm_compute in HX. injection HX as <-.
    destruct Hneg as [-> _]; [lia|]. reflexivity.
Defined.

(** On a machine with nothing but the configuration file: [./exp] is
    made, once. *)
Lemma directory_is_made_only_when_missing_scenario :
  exists config gan,
    yaml_at (fresh_world scenario 0) "lorenz.yaml" = Ok config /\
    getitem config "gan" = Ok gan /\
    getitem gan "gan_path" = Ok (YStr "./exp") /\
    disk (fresh_world scenario 0) !! "./exp" = None /\
    mkdirs (events (main (lorenz_gan := stand_in 0)
                      {| config_file := "lorenz.yaml"; reload := false |}
                      (fresh_world scenario 0))) = ["./exp"].
Proof.
  apply (directory_is_made_only_when_missing (lorenz_gan := stand_in 0)
           {| config_file := "lorenz.yaml"; reload := false |}
           (fresh_world scenario 0) "./exp").
  vm_compute. left.
Defined.

(** On the scenario, from a machine with nothing but the configuration
    file. *)
Lemma fresh_run_trains_on_what_it_saved_scenario :
  exists config lorenz gan generator a skip raw tr n J x_skip t_skip table
         nc csv made w',
    yaml_at (fresh_world scenario 0) "lorenz.yaml" = Ok config /\
    getitem config "lorenz" = Ok lorenz /\
    getitem config "gan" = Ok gan /\
    getitem gan "generator" = Ok generator /\
    getitem generator "num_cond_inputs" = Ok n /\
    getitem lorenz "J" = Ok J /\
    getitem gan "x_skip" = Ok x_skip /\
    getitem gan "t_skip" = Ok t_skip /\
    integrator_arguments lorenz = Ok (a, skip) /\
    integrate (lorenz_gan := stand_in 0) 0 a = Ok raw /\
    trimmed lorenz skip raw = Ok tr /\
    table_builder tr n J x_skip t_skip = Ok table /\
    getitem config "output_nc_file" = Ok nc /\
    getitem config "output_csv_file" = Ok (YStr csv) /\
    disk w' !! csv = Some (FCsv None table) /\
    events (main (lorenz_gan := stand_in 0)
              {| config_file := "lorenz.yaml"; reload := false |}
              (fresh_world scenario 0))
    = (EvOpen "lorenz.yaml" :: map EvMkdir made
       ++ [call_event a; EvProcess tr n J x_skip t_skip;
           EvSaveLorenz tr lorenz nc; EvToCsv csv None table;
           EvPrintFrame table]
       ++ events (train_lorenz_gan (lorenz_gan := stand_in 0)
                    config table w'))%list /\
    outcome (main (lorenz_gan := stand_in 0)
               {| config_file := "lorenz.yaml"; reload := false |}
               (fresh_world scenario 0))
    = outcome (train_lorenz_gan (lorenz_gan := stand_in 0) config table w').
Proof.
  apply (fresh_run_trains_on_what_it_saved (lorenz_gan := stand_in 0)
           {| config_file := "lorenz.yaml"; reload := false |}
           (fresh_world scenario 0)).
  - reflexivity.
  - intros Hc. vm_compute in Hc. discriminate Hc.
Defined.
